(** * HyperStorage6D (hS6Dv3): the compression and decompression workers

    A shallow embedding of [src/utils.js] (the CRC-32 checksum),
    [src/workers/compress-worker.js] and [src/workers/decompress-worker.js],
    with the detector of delimited text and the file-name helpers of
    [src/utils.js], and the properties of the container format, the classifier and the
    progress reports that hold, or fail, on them.

    - A [Uint8Array] is a [list byte]; a JavaScript number that holds a length
      is a [nat], a 32-bit field is a [Z], and a number that is the result of
      a division is a binary64 [float] (the kernel's primitive floats), so
      that [0/0] is NaN and [n/0] is infinite exactly as in the source.
    - [self.postMessage], [console.error] and [console.warn] are recorded in
      a log; [throw] is a [Throw] completion.  The workers run in the
      writer-and-exception monad [M].
    - [bwt-engine.js] and [huffman-engine.js] are not part of the sources, and
      [utils.js] does not define the [isStructuredText] the compress worker
      imports from it: the engines and the detector are parameters.
    - A JavaScript string is the list of its UTF-16 code units;
      [String.prototype.toLowerCase] is a parameter. *)

From Stdlib Require Import ZArith QArith Lia List Bool DecimalString.
From Stdlib.Strings Require Import String Byte Ascii.
From Stdlib Require Import Uint63 PrimFloat.
Import ListNotations.

#[local] Set Warnings "-inexact-float,-abstract-large-number".
#[local] Open Scope Z_scope.

(** ** JavaScript values *)

(** A [Uint8Array]. *)
Definition bytes : Type := list byte.

Definition byteValue (b : byte) : Z := Z.of_N (Byte.to_N b).

(** The byte a typed array stores when a number is assigned to an element:
    the number modulo 256. *)
Definition toUint8 (z : Z) : byte :=
  match Byte.of_N (Z.to_N (z mod 256)) with
  | Some b => b
  | None => x00
  end.

(** [ToInt32] and [ToUint32] of an integer. *)
Definition toUint32 (z : Z) : Z := z mod 2 ^ 32.

Definition toInt32 (z : Z) : Z :=
  let u := toUint32 z in
  if u <? 2 ^ 31 then u else u - 2 ^ 32.

(** The bit operators of JavaScript: the operands are taken as 32-bit
    integers, and the result is signed but for [>>>]. *)
Definition js_xor (a b : Z) : Z := toInt32 (Z.lxor (toInt32 a) (toInt32 b)).
Definition js_and (a b : Z) : Z := toInt32 (Z.land (toInt32 a) (toInt32 b)).
Definition js_or (a b : Z) : Z := toInt32 (Z.lor (toInt32 a) (toInt32 b)).
Definition js_ushr (a : Z) (k : Z) : Z := Z.shiftr (toUint32 a) (k mod 32).

(** A length or a count as a JavaScript number. *)
Definition Number (n : nat) : float := PrimFloat.of_uint63 (Uint63.of_Z (Z.of_nat n)).

(** What a [throw] carries: [new Error(message)], or the [RangeError] of a
    [DataView] or typed-array access out of bounds. *)
Inductive exn : Type :=
| Error (message : string)
| RangeError (message : string).

Definition exn_message (e : exn) : string :=
  match e with
  | Error m => m
  | RangeError m => m
  end.

Inductive completion (A : Type) : Type :=
| Normal (value : A)
| Throw (e : exn).
Arguments Normal {A} value.
Arguments Throw {A} e.

(** ** Typed arrays and [DataView] *)

(** [new Uint8Array(n)]. *)
Definition Uint8Array (n : nat) : bytes := repeat x00 n.

(** [a.slice(start, end)] and [a.slice(start)], for indices that are not
    negative: a copy with a buffer of its own. *)
Definition slice (a : bytes) (start stop : nat) : bytes :=
  firstn (stop - start) (skipn start a).

Definition slice_from (a : bytes) (start : nat) : bytes := skipn start a.

(** [new Uint8Array(n).fill(b)]. *)
Definition fill (n : nat) (b : byte) : bytes := repeat b n.

Definition offset_out_of_bounds : exn :=
  RangeError "Offset is outside the bounds of the DataView".

Definition offset_out_of_source : exn :=
  RangeError "offset is out of bounds".

(** [target.set(source, offset)]: a [RangeError] when the source does not
    fit. *)
Definition set (target source : bytes) (offset : nat) : completion bytes :=
  if (offset + List.length source <=? List.length target)%nat
  then Normal (firstn offset target ++ source
               ++ skipn (offset + List.length source) target)
  else Throw offset_out_of_source.

(** The [n] bytes of [value], most significant first (the default byte order
    of a [DataView]). *)
Fixpoint bigEndian (n : nat) (value : Z) : bytes :=
  match n with
  | O => []
  | S k => toUint8 (Z.shiftr value (8 * Z.of_nat k)) :: bigEndian k value
  end.

Definition fromBigEndian (bs : bytes) : Z :=
  fold_left (fun acc b => acc * 256 + byteValue b) bs 0.

(** A [DataView] over the whole buffer of an array [view].  An access of
    [size] bytes at [byteOffset] throws a [RangeError] unless
    [byteOffset + size <= view.byteLength]. *)
Definition setBytes (size : nat) (view : bytes) (byteOffset : nat) (value : Z)
  : completion bytes :=
  if (byteOffset + size <=? List.length view)%nat
  then Normal (firstn byteOffset view ++ bigEndian size value
               ++ skipn (byteOffset + size) view)
  else Throw offset_out_of_bounds.

Definition getBytes (size : nat) (view : bytes) (byteOffset : nat)
  : completion Z :=
  if (byteOffset + size <=? List.length view)%nat
  then Normal (fromBigEndian (slice view byteOffset (byteOffset + size)))
  else Throw offset_out_of_bounds.

Definition setUint32 := setBytes 4.
Definition setUint8 := setBytes 1.
Definition getUint32 := getBytes 4.
Definition getUint8 := getBytes 1.

(** ** The writer-and-exception monad of a worker *)

(** The messages a worker posts to the page. *)
Inductive message : Type :=
| Progress (progress : float) (stage : string)
| CompressComplete (compressed : bytes) (originalSize compressedSize : nat)
                   (fileName : string) (compressionRatio : float)
| DecompressComplete (decompressed : bytes) (compressedSize originalSize : nat)
                     (fileName : string)
| TooLarge (fileSize : Z)
| Failure (error : string) (fileName : string).

Inductive effect : Type :=
| Post (m : message)
| ConsoleError (label : string) (e : exn)
| ConsoleWarn (text : string).

Definition M (A : Type) : Type := (list effect * completion A)%type.

Definition ret {A} (a : A) : M A := ([], Normal a).

Definition bind {A B} (m : M A) (k : A -> M B) : M B :=
  match m with
  | (log, Normal a) => let (log', r) := k a in (log ++ log', r)
  | (log, Throw e) => (log, Throw e)
  end.

Definition throw {A} (e : exn) : M A := ([], Throw e).

Definition lift {A} (c : completion A) : M A := ([], c).

Definition tell (x : effect) : M unit := ([x], Normal tt).

(** [try { m } catch (error) { handler error }]. *)
Definition try_catch {A} (m : M A) (handler : exn -> M A) : M A :=
  match m with
  | (log, Normal a) => (log, Normal a)
  | (log, Throw e) => let (log', r) := handler e in (log ++ log', r)
  end.

Declare Scope worker_scope.
Delimit Scope worker_scope with worker.
Notation "x <- c ;; k" := (bind c (fun x => k))
  (at level 61, c at next level, right associativity) : worker_scope.
Notation "' p <- c ;; k" := (bind c (fun x => let 'p := x in k))
  (at level 61, p pattern, c at next level, right associativity) : worker_scope.
Notation "c ;; k" := (bind c (fun _ => k))
  (at level 61, right associativity) : worker_scope.

(** [reportProgress(progress, stage)], the same in both workers. *)
Definition reportProgress (progress : float) (stage : string) : M unit :=
  tell (Post (Progress progress stage)).

(** The fractions of the progress messages of a log, in the order posted. *)
Fixpoint progressOf (log : list effect) : list float :=
  match log with
  | [] => []
  | Post (Progress p _) :: rest => p :: progressOf rest
  | _ :: rest => progressOf rest
  end.

(** Whether a log ends the invocation with a ['complete'] message. *)
Definition isComplete (x : effect) : bool :=
  match x with
  | Post (CompressComplete _ _ _ _ _) => true
  | Post (DecompressComplete _ _ _ _) => true
  | _ => false
  end.

Definition completed (log : list effect) : bool := existsb isComplete log.

(** The array a ['complete'] message of a log carries, if there is one. *)
Fixpoint compressedOf (log : list effect) : option bytes :=
  match log with
  | [] => None
  | Post (CompressComplete compressed _ _ _ _) :: _ => Some compressed
  | _ :: rest => compressedOf rest
  end.

Fixpoint decompressedOf (log : list effect) : option bytes :=
  match log with
  | [] => None
  | Post (DecompressComplete decompressed _ _ _) :: _ => Some decompressed
  | _ :: rest => decompressedOf rest
  end.

(** The text of a [Failure] message of a log, if there is one. *)
Fixpoint failureOf (log : list effect) : option string :=
  match log with
  | [] => None
  | Post (Failure error _) :: _ => Some error
  | _ :: rest => failureOf rest
  end.

(** The warnings of a log. *)
Fixpoint warningsOf (log : list effect) : list string :=
  match log with
  | [] => []
  | ConsoleWarn text :: rest => text :: warningsOf rest
  | _ :: rest => warningsOf rest
  end.

(** ** [utils.js]: the CRC-32 checksum *)

(** One entry of the table: eight times
    [c = c & 1 ? 0xEDB88320 ^ (c >>> 1) : c >>> 1]. *)
Fixpoint crcTableEntry (k : nat) (c : Z) : Z :=
  match k with
  | O => c
  | S k' =>
      crcTableEntry k'
        (if js_and c 1 =? 0 then js_ushr c 1
         else js_xor 0xEDB88320 (js_ushr c 1))
  end.

(** The table as the source builds it; a [Uint32Array] stores each entry
    unsigned. *)
Definition buildCrcTable : list Z :=
  map (fun n => toUint32 (crcTableEntry 8 (Z.of_nat n))) (seq 0 256).

Definition CRC32_TABLE : list Z := Eval vm_compute in buildCrcTable.

(** The body of the inner loop:
    [crc = CRC32_TABLE[(crc ^ data[i]) & 0xFF] ^ (crc >>> 8)]. *)
Definition crcStep (crc : Z) (b : byte) : Z :=
  js_xor (nth (Z.to_nat (js_and (js_xor crc (byteValue b)) 0xFF)) CRC32_TABLE 0)
         (js_ushr crc 8).

Definition chunkSize : nat := 32768.

(** The outer loop, from chunk number [chunk] for [n] more chunks; the inner
    loop runs over [data[start .. end-1]]. *)
Fixpoint crcChunks (data : bytes) (n chunk : nat) (crc : Z) : Z :=
  match n with
  | O => crc
  | S n' =>
      let start := (chunk * chunkSize)%nat in
      let stop := Nat.min (start + chunkSize) (List.length data) in
      crcChunks data n' (S chunk) (fold_left crcStep (slice data start stop) crc)
  end.

(** [crc32(data)].  [Math.ceil(data.length / chunkSize)] is the exact
    quotient rounded up: a division by a power of two is exact in binary64. *)
Definition crc32 (data : bytes) : Z :=
  if (List.length data =? 0)%nat then 0
  else
    let crc := js_xor 0 (-1) in
    let chunks := ((List.length data + chunkSize - 1) / chunkSize)%nat in
    js_ushr (js_xor (crcChunks data chunks 0 crc) (-1)) 0.

(** The step of the checksum on the unsigned reading [u] of [crc] and the
    value [v] of the byte: the view in which the properties of the checksum
    are proved. *)
Definition crcNext (u v : Z) : Z :=
  Z.lxor (nth (Z.to_nat (Z.land (Z.lxor u v) 255)) CRC32_TABLE 0) (Z.shiftr u 8).

Definition crcRun (l : bytes) (u : Z) : Z :=
  fold_left (fun u b => crcNext u (byteValue b)) l u.

(** For each value of the top byte of a table entry, the index of the entry
    that has it. *)
Definition topByteIndex : list Z :=
  Eval vm_compute in
    map (fun t =>
           match find (fun i => Z.shiftr (nth (Z.to_nat i) CRC32_TABLE 0) 24 =? t)
                      (map Z.of_nat (seq 0 256)) with
           | Some i => i
           | None => 0
           end)
        (map Z.of_nat (seq 0 256)).

(** ** The engines and the detector the workers import *)

(** [createBWTProcessor()] of [bwt-engine.js] and [createHuffmanEncoder()] of
    [huffman-engine.js]: neither file is among the sources, so each engine is
    a pair of functions on byte arrays that return or throw. *)
Record BWTProcessor : Type := {
  process : bytes -> completion bytes;
  inverse : bytes -> completion bytes
}.

Record HuffmanEncoder : Type := {
  encode : bytes -> completion bytes;
  decode : bytes -> completion bytes
}.

(** ** [compress-worker.js] *)

Module CompressWorker.

(** Whether a byte counts as text: printable ASCII, tab, line feed or
    carriage return. *)
Definition isTextChar (b : byte) : bool :=
  let v := byteValue b in
  ((32 <=? v) && (v <=? 126)) || (v =? 9) || (v =? 10) || (v =? 13).

(** The loop of [shouldUseBWT] over [data[0 .. sampleSize-1]]. *)
Definition countTextChars (sample : bytes) : nat :=
  fold_left (fun textChars b => if isTextChar b then S textChars else textChars)
            sample 0%nat.

(** [isAllSame(data)]: the loop from index 1. *)
Fixpoint allEqualTo (first : byte) (rest : bytes) : bool :=
  match rest with
  | [] => true
  | b :: rest' => if negb (Byte.eqb b first) then false else allEqualTo first rest'
  end.

Definition isAllSame (data : bytes) : bool :=
  if (List.length data <? 100)%nat then false
  else
    let first := nth 0 data x00 in
    allEqualTo first (slice_from data 1).

(** [flags]: bit 0 transform, bit 1 special case, bit 2 stored as is. *)
Definition packFlags (useBWT isSpecialCase isUncompressed : bool) : Z :=
  let flags := 0 in
  let flags := if useBWT then js_or flags 1 else flags in
  let flags := if isSpecialCase then js_or flags 2 else flags in
  let flags := if isUncompressed then js_or flags 4 else flags in
  flags.

Definition MAX_MOBILE_SIZE : Z := 50 * 1024 * 1024.

Record request : Type := {
  data : bytes;
  fileName : string;
  fileSize : Z
}.

(** What the first half of the handler hands to the framing. *)
Record encoded : Type := {
  compressedData : bytes;
  useBWT : bool;
  isSpecialCase : bool;
  isUncompressed : bool;
  compressionRatio : float
}.

Section Worker.

(** [isStructuredText] is imported from [utils.js], which does not define
    it. *)
Variable isStructuredText : bytes -> bool.
Variable bwtProcessor : BWTProcessor.
Variable huffmanEncoder : HuffmanEncoder.

#[local] Open Scope worker_scope.

(** [shouldUseBWT(data)]. *)
Definition shouldUseBWT (data : bytes) : bool :=
  if isStructuredText data then true
  else
    let sampleSize := Nat.min (List.length data) 10000 in
    let textChars := countTextChars (slice data 0 sampleSize) in
    let textRatio := (Number textChars / Number sampleSize)%float in
    (0.85 <? textRatio)%float.

(** Lines 53 to 85: the choice of the path and the encoding; the result is
    [compressedData], [useBWT] and [isSpecialCase]. *)
Definition encodeStage (data : bytes) : M (bytes * bool * bool) :=
  let useBWT := shouldUseBWT data in
  if useBWT then
    reportProgress 0.2 "Aplicando BWT (texto estructurado)" ;;
    compressedData <-
      try_catch
        (bwtData <- lift (process bwtProcessor data) ;;
         reportProgress 0.4 "Comprimiendo con Huffman" ;;
         lift (encode huffmanEncoder bwtData))
        (fun error =>
           tell (ConsoleError "Error en compresión BWT+Huffman:" error) ;;
           throw (Error "Fallo en compresión para texto estructurado")) ;;
    ret (compressedData, useBWT, false)
  else
    reportProgress 0.2 "Comprimiendo binario" ;;
    if isAllSame data then
      reportProgress 0.3 "Optimizando bytes repetidos" ;;
      compressedData <- lift (encode huffmanEncoder data) ;;
      ret (compressedData, useBWT, true)
    else
      compressedData <-
        try_catch
          (lift (encode huffmanEncoder data))
          (fun error =>
             tell (ConsoleError "Error en compresión Huffman:" error) ;;
             throw (Error "Fallo en compresión binaria")) ;;
      ret (compressedData, useBWT, false).

(** Lines 51 to 95: up to the report that precedes the framing. *)
Definition prepare (data : bytes) : M encoded :=
  reportProgress 0.05 "Analizando datos" ;;
  '(compressedData, useBWT, isSpecialCase) <- encodeStage data ;;
  let compressionRatio :=
    (Number (List.length compressedData) / Number (List.length data))%float in
  '(compressedData, isUncompressed) <-
    (if (0.95 <? compressionRatio)%float then
       reportProgress 0.6 "Compresión mínima, usando datos originales" ;;
       ret (data, true)
     else ret (compressedData, false)) ;;
  reportProgress 0.85 "Empaquetando resultado" ;;
  ret {| compressedData := compressedData; useBWT := useBWT;
         isSpecialCase := isSpecialCase; isUncompressed := isUncompressed;
         compressionRatio := compressionRatio |}.

(** The byte the handler passes to [view.setUint8(8, flags)]. *)
Definition flagsOf (enc : encoded) : Z :=
  packFlags (useBWT enc) (isSpecialCase enc) (isUncompressed enc).

(** Lines 97 to 121: the header and the final array. *)
Definition frame (data : bytes) (enc : encoded) : M bytes :=
  let header := Uint8Array 12 in
  header <- lift (setUint32 header 0 0x48533644) ;;
  header <- lift (setUint32 header 4 (Z.of_nat (List.length data))) ;;
  header <- lift (setUint8 header 8 (flagsOf enc)) ;;
  let checksum := crc32 (compressedData enc) in
  header <- lift (setUint32 header 9 checksum) ;;
  let finalOutput :=
    Uint8Array (List.length header + List.length (compressedData enc)) in
  finalOutput <- lift (set finalOutput header 0) ;;
  finalOutput <- lift (set finalOutput (compressedData enc) (List.length header)) ;;
  ret finalOutput.

(** Lines 123 to 132: the last report and the ['complete'] message. *)
Definition complete (req : request) (enc : encoded) (finalOutput : bytes) : M unit :=
  reportProgress 1.0 "Finalizado" ;;
  tell (Post (CompressComplete finalOutput (List.length (data req))
                (List.length finalOutput) (fileName req) (compressionRatio enc))).

(** The [try] block of the handler. *)
Definition body (req : request) : M unit :=
  enc <- prepare (data req) ;;
  finalOutput <- frame (data req) enc ;;
  complete req enc finalOutput.

(** [self.onmessage]: everything the worker does for one request. *)
Definition onmessage (req : request) : list effect :=
  if MAX_MOBILE_SIZE <? fileSize req then [Post (TooLarge (fileSize req))]
  else
    fst (try_catch (body req)
           (fun error =>
              tell (Post (Failure ("Error en compresión: " ++ exn_message error)
                            (fileName req))))).

(** [compress(block)]: the container of the ['complete'] message, when the
    worker posts one. *)
Definition compress (req : request) : option bytes :=
  compressedOf (onmessage req).

End Worker.

End CompressWorker.

(** ** [decompress-worker.js] *)

Module DecompressWorker.

Record request : Type := {
  data : bytes;
  fileName : string;
  fileSize : Z
}.

(** The fields of the header and the three flags read from it. *)
Record header : Type := {
  originalSize : Z;
  flags : Z;
  checksum : Z;
  usedBWT : bool;
  isSpecialCase : bool;
  isUncompressed : bool
}.

(** A number in a template literal. *)
Definition showNat (n : nat) : string := NilEmpty.string_of_uint (Nat.to_uint n).
Definition showZ (z : Z) : string := NilEmpty.string_of_int (Z.to_int z).

Section Worker.

Variable bwtProcessor : BWTProcessor.
Variable huffmanEncoder : HuffmanEncoder.

#[local] Open Scope worker_scope.

(** Lines 19 to 39: the size check, the magic number and the fields. *)
Definition readHeader (data : bytes) : M header :=
  if (List.length data <? 12)%nat then
    throw (Error "Archivo inválido: tamaño mínimo 12 bytes")
  else
    let header := slice data 0 12 in
    magic <- lift (getUint32 header 0) ;;
    if negb (magic =? 0x48533644) then
      throw (Error "Formato de archivo inválido")
    else
      originalSize <- lift (getUint32 header 4) ;;
      flags <- lift (getUint8 header 8) ;;
      checksum <- lift (getUint32 header 9) ;;
      ret {| originalSize := originalSize; flags := flags; checksum := checksum;
             usedBWT := js_and flags 1 =? 1;
             isSpecialCase := js_and flags 2 =? 2;
             isUncompressed := js_and flags 4 =? 4 |}.

(** Lines 43 to 47: the payload and its checksum. *)
Definition verifyChecksum (data : bytes) (h : header) : M bytes :=
  let compressedData := slice_from data 12 in
  if negb (crc32 compressedData =? checksum h) then
    throw (Error "Checksum no coincide - archivo corrupto")
  else ret compressedData.

(** Lines 49 to 64: the stages the flags ask for. *)
Definition decodeStage (h : header) (compressedData : bytes) : M bytes :=
  if isUncompressed h then
    reportProgress 0.8 "Datos sin comprimir" ;;
    ret compressedData
  else
    reportProgress 0.4 "Descomprimiendo Huffman" ;;
    huffmanData <- lift (decode huffmanEncoder compressedData) ;;
    if usedBWT h then
      reportProgress 0.7 "Revirtiendo BWT" ;;
      lift (inverse bwtProcessor huffmanData)
    else ret huffmanData.

(** Lines 66 to 71: the special case of one repeated byte. *)
Definition expandSpecialCase (h : header) (originalData : bytes) : bytes :=
  if isSpecialCase h && (List.length originalData =? 1)%nat && (1 <? originalSize h)
  then fill (Z.to_nat (originalSize h)) (nth 0 originalData x00)
  else originalData.

(** Lines 73 to 79: the size check. *)
Definition checkSize (h : header) (originalData : bytes) : M bytes :=
  if negb (Z.of_nat (List.length originalData) =? originalSize h) then
    tell (ConsoleWarn ("Tamaño descomprimido (" ++ showNat (List.length originalData)
                       ++ ") no coincide con tamaño original ("
                       ++ showZ (originalSize h) ++ ")")) ;;
    if originalSize h <? Z.of_nat (List.length originalData)
    then ret (slice originalData 0 (Z.to_nat (originalSize h)))
    else ret originalData
  else ret originalData.

(** Lines 41 to 89: what follows the reading of the header. *)
Definition afterHeader (req : request) (h : header) : M unit :=
  reportProgress 0.2 "Verificando integridad" ;;
  compressedData <- verifyChecksum (data req) h ;;
  originalData <- decodeStage h compressedData ;;
  let originalData := expandSpecialCase h originalData in
  originalData <- checkSize h originalData ;;
  reportProgress 1.0 "Descompresión completada" ;;
  tell (Post (DecompressComplete originalData (List.length (data req))
                (List.length originalData) (fileName req))).

(** The [try] block of the handler. *)
Definition body (req : request) : M unit :=
  reportProgress 0.05 "Validando archivo" ;;
  h <- readHeader (data req) ;;
  afterHeader req h.

(** [self.onmessage]: everything the worker does for one request. *)
Definition onmessage (req : request) : list effect :=
  fst (try_catch (body req)
         (fun error =>
            tell (Post (Failure ("Error en descompresión: " ++ exn_message error)
                          (fileName req))))).

(** [decompress(container)]: the block of the ['complete'] message, when the
    worker posts one. *)
Definition decompress (req : request) : option bytes :=
  decompressedOf (onmessage req).

End Worker.

End DecompressWorker.

(** ** Stand-ins and reference definitions used by the statements *)

(** A storing codec: both engines hand their input back.  It only serves to
    run the workers on concrete blocks. *)
Definition storeBWT : BWTProcessor := {| process := Normal; inverse := Normal |}.
Definition storeHuffman : HuffmanEncoder := {| encode := Normal; decode := Normal |}.

(** A detector that recognises nothing. *)
Definition noStructure (data : bytes) : bool := false.

(** The text class as the specification words it: printable ASCII (32 to 126)
    or one of tab, line feed, carriage return. *)
Definition printableOrWhitespace (b : byte) : bool :=
  existsb (Z.eqb (byteValue b)) [9; 10; 13]
  || ((32 <=? byteValue b) && (byteValue b <=? 126)).

(** The fraction of text bytes among the first [min(length, 10000)] bytes, as
    the specification words it; there is none for the empty block. *)
Definition textFraction (data : bytes) : option Q :=
  let sample := firstn (Nat.min (List.length data) 10000) data in
  match List.length sample with
  | O => None
  | S _ =>
      Some (Z.of_nat (List.length (filter printableOrWhitespace sample))
            # Pos.of_nat (List.length sample))
  end.

(** The two errors [readHeader] throws by itself, and the one of the checksum
    test. *)
Definition tooShort : exn := Error "Archivo inválido: tamaño mínimo 12 bytes".
Definition badMagic : exn := Error "Formato de archivo inválido".
Definition checksumMismatch : exn := Error "Checksum no coincide - archivo corrupto".

(** Modelled from the spec: the container layout of its section 6, a header of
    13 bytes (magic, originalSize, flags, checksum over the payload) followed
    by the payload.  No function of the sources builds it. *)
Definition container13 (originalSize flags : Z) (payload : bytes) : bytes :=
  bigEndian 4 0x48533644 ++ bigEndian 4 originalSize ++ bigEndian 1 flags
  ++ bigEndian 4 (crc32 payload) ++ payload.

(** One bit of one byte of an array flipped. *)
Definition flipBit (a : bytes) (index : nat) (bit : Z) : bytes :=
  firstn index a
  ++ match nth_error a index with
     | Some b => [toUint8 (Z.lxor (byteValue b) (Z.shiftl 1 bit))]
     | None => []
     end
  ++ skipn (S index) a.

(** A sequence of fractions that never decreases, and one that stays within
    [0, 1]. *)
Fixpoint nondecreasing (ps : list float) : bool :=
  match ps with
  | [] => true
  | p :: rest =>
      match rest with
      | [] => true
      | q :: _ => (p <=? q)%float && nondecreasing rest
      end
  end.

Definition withinUnit (ps : list float) : bool :=
  forallb (fun p => (0 <=? p)%float && (p <=? 1)%float) ps.

(** The two halves of the statement on progress: the fractions are within
    [0, 1] and never decrease, and a log with a ['complete'] message has 1.0
    as its last fraction. *)
Definition wellOrdered (ps : list float) : bool :=
  withinUnit ps && nondecreasing ps.

Definition endsAtOne (log : list effect) : Prop :=
  completed log = true -> last (progressOf log) 0%float = 1%float.

(** ** A decision procedure for the text-ratio test

    [textChars / sampleSize > 0.85] is a comparison of binary64 numbers: the
    quotient is rounded, and [0.85] is the double next to 17/20.  For all the
    counts the sampler can produce (at most 10000 bytes) the test agrees with
    the exact comparison [17 * sampleSize < 20 * textChars]; the table below
    checks it row by row. *)

Definition intOfNat (n : nat) : int := Uint63.of_Z (Z.of_nat n).

(** Every [t] of [t0 .. t0+n-1] has [(0.85 < t / s) = expect]. *)
Fixpoint rowIs (expect : bool) (s : float) (n : nat) (t : int) : bool :=
  match n with
  | O => true
  | S n' =>
      if Bool.eqb (0.85 <? PrimFloat.of_uint63 t / s)%float expect
      then rowIs expect s n' (t + 1)%uint63
      else false
  end.

(** The rows [s .. s+n-1].  In row [s] the first [lo] counts are those with
    [20 * t <= 17 * s], the next [hi] the others up to [s]; [r] is
    [17 * s mod 20]. *)
Fixpoint tableIs (n : nat) (s : int) (lo hi r : nat) : bool :=
  match n with
  | O => true
  | S n' =>
      if rowIs false (PrimFloat.of_uint63 s) lo 0%uint63 then
        if rowIs true (PrimFloat.of_uint63 s) hi (intOfNat lo) then
          if (r + 17 <? 20)%nat
          then tableIs n' (s + 1)%uint63 lo (S hi) (r + 17)
          else tableIs n' (s + 1)%uint63 (S lo) hi (r + 17 - 20)
        else false
      else false
  end.

(** ** What the statements say of a header and of a log *)

(** Lines 33 to 39 of the decompress worker: the record [readHeader] builds
    from the three fields it reads. *)
Definition headerFields (originalSize flags checksum : Z) : DecompressWorker.header :=
  {| DecompressWorker.originalSize := originalSize;
     DecompressWorker.flags := flags;
     DecompressWorker.checksum := checksum;
     DecompressWorker.usedBWT := js_and flags 1 =? 1;
     DecompressWorker.isSpecialCase := js_and flags 2 =? 2;
     DecompressWorker.isUncompressed := js_and flags 4 =? 4 |}.

(** The ['complete'] message of the decompress worker, whole. *)
Fixpoint completeOf (log : list effect) : option message :=
  match log with
  | [] => None
  | Post (DecompressComplete d c o n) :: _ => Some (DecompressComplete d c o n)
  | _ :: rest => completeOf rest
  end.

(** A log of progress messages only. *)
Definition isProgress (x : effect) : bool :=
  match x with
  | Post (Progress _ _) => true
  | _ => false
  end.

Definition progressOnly (log : list effect) : bool := forallb isProgress log.

(** A message that answers the request: every post but a progress report. *)
Definition isAnswer (x : effect) : bool :=
  match x with
  | Post (Progress _ _) => false
  | Post _ => true
  | _ => false
  end.

(** ** The checksum bit by bit *)

(** One step of the bitwise checksum on an unsigned state: the body of the
    loop that builds the table, read on [c >>> 0]. *)
Definition bitStep (u : Z) : Z :=
  if Z.testbit u 0 then Z.lxor 0xEDB88320 (Z.shiftr u 1) else Z.shiftr u 1.

Fixpoint bitSteps (k : nat) (u : Z) : Z :=
  match k with
  | O => u
  | S k' => bitSteps k' (bitStep u)
  end.

(** ** [utils.js]: the detector of delimited text

    A JavaScript string is the list of its UTF-16 code units. *)
Definition codeUnit : Type := N.
Definition jsString : Type := list codeUnit.

(** The code units of a literal of ASCII characters. *)
Definition units (s : string) : jsString :=
  map N_of_ascii (list_ascii_of_string s).

(** [s.split(separator)] for a separator of one code unit. *)
Fixpoint split (separator : codeUnit) (s : jsString) : list jsString :=
  match s with
  | [] => [[]]
  | c :: rest =>
      if N.eqb c separator then [] :: split separator rest
      else match split separator rest with
           | piece :: pieces => (c :: piece) :: pieces
           | [] => [[c]]
           end
  end.

(** [lines.join(separator)], the inverse the statements use. *)
Fixpoint join (separator : codeUnit) (pieces : list jsString) : jsString :=
  match pieces with
  | [] => []
  | [piece] => piece
  | piece :: rest => piece ++ separator :: join separator rest
  end.

(** [[',', ';', '\t', '|']]. *)
Definition delimiters : list codeUnit := [44; 59; 9; 124]%N.

(** [Math.max(...counts)] for a list of counts that is not empty. *)
Definition maxOf (counts : list nat) : nat := fold_right Nat.max 0%nat counts.

(** [counts.indexOf(x)]: the first index, or [-1]. *)
Fixpoint indexOf (x : nat) (counts : list nat) : Z :=
  match counts with
  | [] => -1
  | c :: rest =>
      if (c =? x)%nat then 0
      else let i := indexOf x rest in if i <? 0 then -1 else i + 1
  end.

(** [s.split(separator)] where the separator may be [undefined]: the whole
    string is then the only piece. *)
Definition splitBy (separator : option codeUnit) (s : jsString) : list jsString :=
  match separator with
  | Some d => split d s
  | None => [s]
  end.

(** [array[i]] for an index that may be [-1]: [None] is [undefined]. *)
Definition at_ {A : Type} (array : list A) (i : Z) : option A :=
  if i <? 0 then None else nth_error array (Z.to_nat i).

(** The object [detectCSV] returns. *)
Record csvInfo : Type := {
  type : string;
  delimiter : option codeUnit;
  columns : nat;
  rows : nat
}.

(** The loop of [detectCSV]: the lines [1 .. min(10, lines.length) - 1] whose
    number of pieces is [colCount], counted from 1. *)
Definition consistentLines (mainDelimiter : option codeUnit) (colCount : nat)
           (lines : list jsString) : nat :=
  fold_left
    (fun consistent line =>
       if (List.length (splitBy mainDelimiter line) =? colCount)%nat
       then S consistent else consistent)
    (skipn 1 (firstn (Nat.min 10 (List.length lines)) lines)) 1%nat.

(** [detectCSV(text)]; [None] is [null]. *)
Definition detectCSV (text : jsString) : option csvInfo :=
  let lines := split 10%N text in
  if (List.length lines <? 3)%nat then None
  else
    let firstLine := nth 0 lines [] in
    let counts := map (fun d => (List.length (split d firstLine) - 1)%nat) delimiters in
    let maxCount := maxOf counts in
    if (maxCount <? 2)%nat then None
    else
      let mainDelimiter := at_ delimiters (indexOf maxCount counts) in
      let colCount := List.length (splitBy mainDelimiter firstLine) in
      if (5 <? consistentLines mainDelimiter colCount lines)%nat
      then Some {| type := "csv"; delimiter := mainDelimiter;
                   columns := colCount; rows := List.length lines |}
      else None.

(** ** [utils.js]: file names *)

(** [s.lastIndexOf(c)] for one code unit: the last index, or [-1]. *)
Fixpoint lastIndexOf (s : jsString) (c : codeUnit) : Z :=
  match s with
  | [] => -1
  | x :: rest =>
      let i := lastIndexOf rest c in
      if 0 <=? i then i + 1 else if N.eqb x c then 0 else -1
  end.

(** [getFileExtension(filename)].  [0 || Infinity] is [Infinity], and a
    slice from there is empty; [toLowerCase] is the method of the host. *)
Definition getFileExtension (toLowerCase : jsString -> jsString)
           (filename : jsString) : jsString :=
  let dot := Z.max 0 (lastIndexOf filename 46%N) in
  toLowerCase (if dot =? 0 then [] else skipn (Z.to_nat (dot + 1)) filename).

Definition nonCompressible : list jsString :=
  map units [".mp4"; ".jpg"; ".jpeg"; ".png"; ".gif";
             ".zip"; ".rar"; ".7z"; ".xlsx"; ".pdf"]%string.

(** [array.includes(s)] for an array of strings. *)
Definition includes (array : list jsString) (s : jsString) : bool :=
  existsb (fun e => if list_eq_dec N.eq_dec e s then true else false) array.

(** [shouldCompressFile(filename, fileSize)]. *)
Definition shouldCompressFile (toLowerCase : jsString -> jsString)
           (filename : jsString) (fileSize : Z) : bool :=
  let ext := getFileExtension toLowerCase filename in
  negb (includes nonCompressible (46%N :: ext)).

(** Lower case for the letters A to Z, a stand-in for [toLowerCase] on
    ASCII names. *)
Definition asciiLower (s : jsString) : jsString :=
  map (fun c => if (65 <=? c)%N && (c <=? 90)%N then (c + 32)%N else c) s.

(** * Properties *)

(** ** The [DataView] accessors *)

Lemma bigEndian_length (n : nat) (value : Z) :
  List.length (bigEndian n value) = n.
Proof. induction n as [|n IH]; simpl; [reflexivity | now rewrite IH]. Qed.

(** A write that succeeds keeps the length of the buffer. *)
Lemma setBytes_length (size : nat) (view : bytes) (byteOffset : nat) (value : Z)
      (view' : bytes) :
  setBytes size view byteOffset value = Normal view' ->
  List.length view' = List.length view.
Proof.
  unfold setBytes.
  destruct (byteOffset + size <=? List.length view)%nat eqn:Hfit; [|discriminate].
  apply Nat.leb_le in Hfit. intros [= <-].
  rewrite !length_app, bigEndian_length, length_firstn, length_skipn. lia.
Qed.

(** An access succeeds exactly when it fits. *)
Lemma setBytes_fits (size : nat) (view : bytes) (byteOffset : nat) (value : Z) :
  (byteOffset + size <= List.length view)%nat ->
  exists view', setBytes size view byteOffset value = Normal view'.
Proof.
  intros Hfit. unfold setBytes.
  apply Nat.leb_le in Hfit. rewrite Hfit. eauto.
Qed.

Lemma setBytes_overflow (size : nat) (view : bytes) (byteOffset : nat) (value : Z) :
  (List.length view < byteOffset + size)%nat ->
  setBytes size view byteOffset value = Throw offset_out_of_bounds.
Proof.
  intros Hover. unfold setBytes.
  apply Nat.leb_gt in Hover. now rewrite Hover.
Qed.

Lemma getBytes_overflow (size : nat) (view : bytes) (byteOffset : nat) :
  (List.length view < byteOffset + size)%nat ->
  getBytes size view byteOffset = Throw offset_out_of_bounds.
Proof.
  intros Hover. unfold getBytes.
  apply Nat.leb_gt in Hover. now rewrite Hover.
Qed.

Lemma slice_length (a : bytes) (start stop : nat) :
  (stop <= List.length a)%nat ->
  List.length (slice a start stop) = (stop - start)%nat.
Proof.
  intros Hstop. unfold slice. rewrite length_firstn, length_skipn. lia.
Qed.

(** ** The framing of the compress worker *)

(** The header is an array of 12 bytes, and the checksum is written as four
    bytes at offset 9: the write throws, whatever was encoded. *)
Lemma frame_throws (data : bytes) (enc : CompressWorker.encoded) :
  CompressWorker.frame data enc = ([], Throw offset_out_of_bounds).
Proof.
  unfold CompressWorker.frame, setUint32, setUint8.
  destruct (setBytes_fits 4 (Uint8Array 12) 0 0x48533644) as [h1 H1];
    [simpl; lia|].
  pose proof (setBytes_length _ _ _ _ _ H1) as L1.
  destruct (setBytes_fits 4 h1 4 (Z.of_nat (List.length data))) as [h2 H2];
    [rewrite L1; simpl; lia|].
  pose proof (setBytes_length _ _ _ _ _ H2) as L2.
  destruct (setBytes_fits 1 h2 8 (CompressWorker.flagsOf enc)) as [h3 H3];
    [rewrite L2, L1; simpl; lia|].
  pose proof (setBytes_length _ _ _ _ _ H3) as L3.
  rewrite H1. cbn [lift bind app]. rewrite H2. cbn [lift bind app].
  rewrite H3. cbn [lift bind app].
  rewrite setBytes_overflow; [reflexivity|].
  rewrite L3, L2, L1. simpl. lia.
Qed.

(** ** Logs *)

Lemma progressOf_app (l1 l2 : list effect) :
  progressOf (l1 ++ l2) = progressOf l1 ++ progressOf l2.
Proof.
  induction l1 as [|x l1 IH]; [reflexivity|].
  destruct x as [[]| |]; simpl; now rewrite IH.
Qed.

Lemma compressedOf_app (l1 l2 : list effect) :
  compressedOf (l1 ++ l2)
  = match compressedOf l1 with Some c => Some c | None => compressedOf l2 end.
Proof.
  induction l1 as [|x l1 IH]; [reflexivity|].
  destruct x as [[]| |]; simpl; now rewrite ?IH.
Qed.

Lemma completed_app (l1 l2 : list effect) :
  completed (l1 ++ l2) = completed l1 || completed l2.
Proof. unfold completed. apply existsb_app. Qed.

(** Case analysis on every test and every call of an engine in the goal. *)
Ltac run_worker :=
  cbn [bind ret lift tell throw try_catch reportProgress fst snd app].

Ltac split_paths :=
  repeat (run_worker;
          match goal with
          | |- context [if ?c then _ else _] => destruct c eqn:?
          | |- context [match ?c with Normal _ => _ | Throw _ => _ end] =>
              destruct c eqn:?
          end);
  run_worker.

Section CompressFacts.

Variable isStructuredText : bytes -> bool.
Variable bwtProcessor : BWTProcessor.
Variable huffmanEncoder : HuffmanEncoder.

Let prepare := CompressWorker.prepare isStructuredText bwtProcessor huffmanEncoder.
Let body := CompressWorker.body isStructuredText bwtProcessor huffmanEncoder.
Let onmessage :=
  CompressWorker.onmessage isStructuredText bwtProcessor huffmanEncoder.

(** The first half of the handler posts progress only, and its fractions
    rise from 0.05 to at most 0.85. *)
Lemma prepare_log (data : bytes) :
  compressedOf (fst (prepare data)) = None
  /\ completed (fst (prepare data)) = false
  /\ nondecreasing (progressOf (fst (prepare data)) ++ [1%float]) = true
  /\ withinUnit (progressOf (fst (prepare data))) = true.
Proof.
  unfold prepare, CompressWorker.prepare, CompressWorker.encodeStage.
  split_paths; repeat split; reflexivity.
Qed.

(** The handler never reaches its ['complete'] message: the framing throws. *)
Lemma body_throws (req : CompressWorker.request) :
  exists e, body req = (fst (prepare (CompressWorker.data req)), Throw e).
Proof.
  unfold body, CompressWorker.body. fold prepare.
  destruct (prepare (CompressWorker.data req)) as [log [enc|e]]; cbn [bind fst].
  - rewrite frame_throws. cbn [bind]. rewrite app_nil_r. eauto.
  - eauto.
Qed.

Lemma onmessage_log (req : CompressWorker.request) :
  onmessage req = [Post (TooLarge (CompressWorker.fileSize req))]
  \/ exists e,
      onmessage req
      = fst (prepare (CompressWorker.data req))
        ++ [Post (Failure ("Error en compresión: " ++ exn_message e)
                    (CompressWorker.fileName req))].
Proof.
  unfold onmessage, CompressWorker.onmessage.
  destruct (CompressWorker.MAX_MOBILE_SIZE <? CompressWorker.fileSize req);
    [now left | right].
  destruct (body_throws req) as [e He]. fold body. rewrite He.
  exists e. reflexivity.
Qed.

End CompressFacts.

(** ** The header read by the decompress worker *)

Section DecompressFacts.

Variable bwtProcessor : BWTProcessor.
Variable huffmanEncoder : HuffmanEncoder.

Let body := DecompressWorker.body bwtProcessor huffmanEncoder.
Let onmessage := DecompressWorker.onmessage bwtProcessor huffmanEncoder.

(** The header is a copy of the first 12 bytes, and the checksum is read as
    four bytes at offset 9 of it: no input gets past [readHeader]. *)
Lemma readHeader_throws (data : bytes) :
  DecompressWorker.readHeader data
  = ([], Throw (if (List.length data <? 12)%nat then tooShort
                else if negb (fromBigEndian (slice (slice data 0 12) 0 4)
                              =? 0x48533644) then badMagic
                     else offset_out_of_bounds)).
Proof.
  unfold DecompressWorker.readHeader.
  destruct (List.length data <? 12)%nat eqn:Hlen; [reflexivity|].
  apply Nat.ltb_ge in Hlen.
  assert (L : List.length (slice data 0 12) = 12%nat)
    by (rewrite slice_length; lia).
  unfold getUint32, getUint8, getBytes. rewrite L.
  replace (0 + 4 <=? 12)%nat with true by reflexivity.
  replace (4 + 4 <=? 12)%nat with true by reflexivity.
  replace (8 + 1 <=? 12)%nat with true by reflexivity.
  replace (9 + 4 <=? 12)%nat with false by reflexivity.
  run_worker. cbn [Nat.add].
  destruct (negb (fromBigEndian (slice (slice data 0 12) 0 4) =? 0x48533644));
    reflexivity.
Qed.

Lemma body_throws_early (req : DecompressWorker.request) :
  exists e,
    DecompressWorker.readHeader (DecompressWorker.data req) = ([], Throw e)
    /\ body req = ([Post (Progress 0.05 "Validando archivo")], Throw e).
Proof.
  eexists. split; [apply readHeader_throws|].
  unfold body, DecompressWorker.body.
  rewrite readHeader_throws. reflexivity.
Qed.

Lemma decompress_log (req : DecompressWorker.request) :
  exists e,
    DecompressWorker.readHeader (DecompressWorker.data req) = ([], Throw e)
    /\ onmessage req
       = [Post (Progress 0.05 "Validando archivo");
          Post (Failure ("Error en descompresión: " ++ exn_message e)
                  (DecompressWorker.fileName req))].
Proof.
  destruct (body_throws_early req) as [e [Hh He]].
  exists e. split; [exact Hh|].
  unfold onmessage, DecompressWorker.onmessage. fold body. rewrite He.
  reflexivity.
Qed.

End DecompressFacts.

(** A container laid out with the header of 13 bytes has the magic number in
    front and more than 12 bytes. *)
Lemma container13_header (originalSize flags : Z) (payload : bytes) :
  (List.length (container13 originalSize flags payload) <? 12)%nat = false
  /\ fromBigEndian (slice (slice (container13 originalSize flags payload) 0 12) 0 4)
     = 0x48533644.
Proof. split; reflexivity. Qed.

(** ** The text-ratio test in binary64 *)

Lemma intOfNat_succ (n : nat) : intOfNat (S n) = (intOfNat n + 1)%uint63.
Proof.
  unfold intOfNat. apply Uint63.to_Z_inj.
  rewrite Uint63.add_spec, !Uint63.of_Z_spec, Uint63.to_Z_1, Nat2Z.inj_succ.
  unfold Z.succ. now rewrite Zplus_mod_idemp_l.
Qed.

Lemma Number_intOfNat (n : nat) : Number n = PrimFloat.of_uint63 (intOfNat n).
Proof. reflexivity. Qed.

(** What a row that checks says of each of its counts. *)
Lemma rowIs_sound (expect : bool) (s : float) (n : nat) :
  forall t0 : nat,
    rowIs expect s n (intOfNat t0) = true ->
    forall t : nat, (t0 <= t < t0 + n)%nat ->
      (0.85 <? Number t / s)%float = expect.
Proof.
  induction n as [|n IH]; intros t0 Hrow t Ht; [lia|].
  cbn [rowIs] in Hrow.
  destruct (Bool.eqb (0.85 <? PrimFloat.of_uint63 (intOfNat t0) / s)%float expect)
    eqn:Hhere; [|discriminate].
  destruct (Nat.eq_dec t t0) as [->|Hne].
  - apply eqb_prop in Hhere. exact Hhere.
  - rewrite <- intOfNat_succ in Hrow.
    apply (IH (S t0) Hrow). lia.
Qed.

(** What a table that checks says of each pair of its rows. *)
Lemma tableIs_sound (n : nat) :
  forall s lo hi r : nat,
    (lo + hi = s + 1)%nat -> (17 * s + 20 = 20 * lo + r)%nat -> (r < 20)%nat ->
    tableIs n (intOfNat s) lo hi r = true ->
    forall s' t : nat, (s <= s' < s + n)%nat -> (t <= s')%nat ->
      (0.85 <? Number t / Number s')%float = (17 * s' <? 20 * t)%nat.
Proof.
  induction n as [|n IH]; intros s lo hi r Hsum Hdiv Hr Htab s' t Hs' Ht; [lia|].
  cbn [tableIs] in Htab.
  destruct (rowIs false (PrimFloat.of_uint63 (intOfNat s)) lo 0%uint63)
    eqn:Hlo; [|discriminate].
  destruct (rowIs true (PrimFloat.of_uint63 (intOfNat s)) hi (intOfNat lo))
    eqn:Hhi; [|discriminate].
  destruct (Nat.eq_dec s' s) as [->|Hne].
  - rewrite (Number_intOfNat s).
    destruct (Nat.lt_ge_cases t lo) as [Hlt|Hge].
    + rewrite (rowIs_sound false _ lo 0 Hlo t) by lia.
      symmetry. apply Nat.ltb_ge. lia.
    + rewrite (rowIs_sound true _ hi lo Hhi t) by lia.
      symmetry. apply Nat.ltb_lt. lia.
  - rewrite <- intOfNat_succ in Htab.
    destruct (r + 17 <? 20)%nat eqn:Hcarry.
    + apply Nat.ltb_lt in Hcarry.
      apply (IH (S s) lo (S hi) (r + 17)%nat); try lia. exact Htab.
    + apply Nat.ltb_ge in Hcarry.
      apply (IH (S s) (S lo) hi (r + 17 - 20)%nat); try lia. exact Htab.
Qed.

(** The table holds for every sample of at most 10000 bytes. *)
Lemma table_checks : tableIs 10001 0%uint63 1 0 0 = true.
Proof. vm_compute. reflexivity. Qed.

(** The comparison of the source is the exact one. *)
Lemma textRatio_exact (textChars sampleSize : nat) :
  (textChars <= sampleSize)%nat -> (sampleSize <= 10000)%nat ->
  (0.85 <? Number textChars / Number sampleSize)%float
  = (17 * sampleSize <? 20 * textChars)%nat.
Proof.
  intros Ht Hs.
  change 10000%nat with (100 * 100)%nat in Hs.
  apply (tableIs_sound 10001 0 1 0 0 eq_refl eq_refl (Nat.lt_0_succ 19)
           table_checks); [|exact Ht].
  change 10001%nat with (S (100 * 100)). lia.
Qed.

(** ** The classifier *)

Lemma countTextChars_filter (sample : bytes) :
  CompressWorker.countTextChars sample
  = List.length (filter CompressWorker.isTextChar sample).
Proof.
  unfold CompressWorker.countTextChars.
  enough (H : forall acc : nat,
             fold_left (fun textChars b =>
                          if CompressWorker.isTextChar b then S textChars
                          else textChars) sample acc
             = (acc + List.length (filter CompressWorker.isTextChar sample))%nat)
    by apply (H 0%nat).
  induction sample as [|b sample IH]; intros acc; simpl; [lia|].
  rewrite IH. destruct (CompressWorker.isTextChar b); simpl; lia.
Qed.

Lemma filter_length_le {A : Type} (f : A -> bool) (l : list A) :
  (List.length (filter f l) <= List.length l)%nat.
Proof.
  induction l as [|a l IH]; simpl; [lia|].
  destruct (f a); simpl; lia.
Qed.

(** The class the sampler counts is the one the specification names. *)
Lemma isTextChar_class (b : byte) :
  CompressWorker.isTextChar b = printableOrWhitespace b.
Proof.
  unfold CompressWorker.isTextChar, printableOrWhitespace. cbn [existsb].
  destruct (32 <=? byteValue b), (byteValue b <=? 126), (byteValue b =? 9),
    (byteValue b =? 10), (byteValue b =? 13); reflexivity.
Qed.

Lemma slice_prefix (a : bytes) (n : nat) : slice a 0 n = firstn n a.
Proof. unfold slice. now rewrite Nat.sub_0_r. Qed.

(** [isAllSame]. *)
Lemma allEqualTo_Forall (first : byte) (rest : bytes) :
  CompressWorker.allEqualTo first rest = true <-> Forall (eq first) rest.
Proof.
  induction rest as [|b rest IH]; simpl.
  - split; [constructor | reflexivity].
  - destruct (Byte.eqb b first) eqn:Heq; simpl.
    + apply Byte.byte_dec_bl in Heq. subst b. rewrite IH.
      split; [now constructor | now inversion 1].
    + apply Byte.eqb_false in Heq.
      split; [discriminate | inversion 1; congruence].
Qed.

Lemma isAllSame_short (data : bytes) :
  (List.length data < 100)%nat -> CompressWorker.isAllSame data = false.
Proof.
  intros Hlen. unfold CompressWorker.isAllSame.
  apply Nat.ltb_lt in Hlen. now rewrite Hlen.
Qed.

Lemma isAllSame_long (data : bytes) :
  (100 <= List.length data)%nat ->
  (CompressWorker.isAllSame data = true <-> Forall (eq (nth 0 data x00)) data).
Proof.
  intros Hlen. unfold CompressWorker.isAllSame.
  apply Nat.ltb_ge in Hlen. rewrite Hlen.
  destruct data as [|first rest]; [discriminate|].
  cbn [nth slice_from skipn]. rewrite allEqualTo_Forall.
  split; [now constructor | now inversion 1].
Qed.

(** The flags byte. *)
Lemma packFlags_bits (useBWT isSpecialCase isUncompressed : bool) :
  Z.testbit (CompressWorker.packFlags useBWT isSpecialCase isUncompressed) 0 = useBWT
  /\ Z.testbit (CompressWorker.packFlags useBWT isSpecialCase isUncompressed) 1
     = isSpecialCase
  /\ Z.testbit (CompressWorker.packFlags useBWT isSpecialCase isUncompressed) 2
     = isUncompressed.
Proof. destruct useBWT, isSpecialCase, isUncompressed; repeat split; reflexivity. Qed.

(** What the first half of the handler records of the path it took. *)
Lemma prepare_flags (isStructuredText : bytes -> bool) (bwtProcessor : BWTProcessor)
      (huffmanEncoder : HuffmanEncoder) (data : bytes) (log : list effect)
      (enc : CompressWorker.encoded) :
  CompressWorker.prepare isStructuredText bwtProcessor huffmanEncoder data
  = (log, Normal enc) ->
  CompressWorker.useBWT enc = CompressWorker.shouldUseBWT isStructuredText data
  /\ CompressWorker.isSpecialCase enc
     = negb (CompressWorker.shouldUseBWT isStructuredText data)
       && CompressWorker.isAllSame data.
Proof.
  unfold CompressWorker.prepare, CompressWorker.encodeStage.
  split_paths; intros [= <- <-]; split; reflexivity.
Qed.

(** The exact comparison, read as a fraction. *)
Lemma fraction_exceeds (textChars sampleSize : nat) :
  (0 < sampleSize)%nat ->
  ((0.85 < Z.of_nat textChars # Pos.of_nat sampleSize)%Q
   <-> (17 * sampleSize < 20 * textChars)%nat).
Proof.
  intros Hpos. unfold Qlt. cbn [Qnum Qden].
  replace (Z.pos (Pos.of_nat sampleSize)) with (Z.of_nat sampleSize)
    by (destruct sampleSize; [lia | now rewrite <- Pos.of_nat_succ, Zpos_P_of_succ_nat, Nat2Z.inj_succ]).
  lia.
Qed.

(** ** The claims *)

(** C7. The classifier chooses the transform exactly when the structured-text
    detector recognises the block, or when the fraction of printable-ASCII
    (32 to 126), tab, line-feed and carriage-return bytes among the first
    [min(length, 10000)] bytes exceeds 0.85.  The decision is a function of
    the block alone: [shouldUseBWT] reads its argument and posts nothing. *)
Theorem shouldUseBWT_iff (isStructuredText : bytes -> bool) (data : bytes) :
  CompressWorker.shouldUseBWT isStructuredText data = true
  <-> isStructuredText data = true
      \/ exists q : Q, textFraction data = Some q /\ (0.85 < q)%Q.
Proof.
  unfold CompressWorker.shouldUseBWT, textFraction.
  destruct (isStructuredText data); [split; auto|].
  rewrite slice_prefix, countTextChars_filter.
  set (sample := firstn (Nat.min (List.length data) 10000) data).
  assert (Hsample : List.length sample = Nat.min (List.length data) 10000)
    by (unfold sample; rewrite length_firstn; apply Nat.min_l, Nat.le_min_l).
  rewrite <- Hsample.
  rewrite (filter_ext _ _ isTextChar_class).
  pose proof (filter_length_le printableOrWhitespace sample) as Hle.
  rewrite textRatio_exact; [|exact Hle | rewrite Hsample; apply Nat.le_min_r].
  rewrite Nat.ltb_lt.
  destruct (List.length sample) as [|n] eqn:Hn.
  - split; [lia | intros [H|[q [H _]]]; discriminate].
  - rewrite <- Hn in *. split.
    + intros H. right. eexists. split; [reflexivity|].
      apply fraction_exceeds; lia.
    + intros [H|[q [[= <-] H]]]; [discriminate|].
      apply fraction_exceeds in H; lia.
Qed.

(** At the threshold: 17 text bytes out of 20 are a fraction of exactly
    0.85, which does not exceed it; 18 out of 20 do; and the empty block has
    no fraction at all. *)
Example shouldUseBWT_examples :
  CompressWorker.shouldUseBWT noStructure (repeat "A"%byte 17 ++ repeat x00 3)
  = false
  /\ CompressWorker.shouldUseBWT noStructure (repeat "A"%byte 18 ++ repeat x00 2)
     = true
  /\ CompressWorker.shouldUseBWT noStructure [] = false
  /\ textFraction (repeat "A"%byte 17 ++ repeat x00 3) = Some (17 # 20)
  /\ textFraction [] = None.
Proof. repeat split; vm_compute; reflexivity. Qed.

Lemma nondecreasing_init (ps : list float) (p : float) :
  nondecreasing (ps ++ [p]) = true -> nondecreasing ps = true.
Proof.
  induction ps as [|a ps IH]; [reflexivity|].
  destruct ps as [|b ps]; [reflexivity|].
  cbn [app nondecreasing] in *.
  intros H. apply andb_prop in H as [Hab Hrest].
  now rewrite Hab, IH.
Qed.

(** No request makes the compress worker post a container. *)
Lemma onmessage_posts_no_container
      (isStructuredText : bytes -> bool) (bwtProcessor : BWTProcessor)
      (huffmanEncoder : HuffmanEncoder) (req : CompressWorker.request) :
  compressedOf (CompressWorker.onmessage isStructuredText bwtProcessor
                  huffmanEncoder req) = None.
Proof.
  destruct (onmessage_log isStructuredText bwtProcessor huffmanEncoder req)
    as [-> | [e ->]]; [reflexivity|].
  rewrite compressedOf_app.
  destruct (prepare_log isStructuredText bwtProcessor huffmanEncoder
              (CompressWorker.data req)) as [-> _].
  reflexivity.
Qed.

(** No request makes the decompress worker post a block, or report a
    checksum that does not match. *)
Lemma decompress_posts_no_block
      (bwtProcessor : BWTProcessor) (huffmanEncoder : HuffmanEncoder)
      (req : DecompressWorker.request) :
  decompressedOf (DecompressWorker.onmessage bwtProcessor huffmanEncoder req) = None
  /\ warningsOf (DecompressWorker.onmessage bwtProcessor huffmanEncoder req) = []
  /\ failureOf (DecompressWorker.onmessage bwtProcessor huffmanEncoder req)
     <> Some ("Error en descompresión: " ++ exn_message checksumMismatch)%string.
Proof.
  destruct (decompress_log bwtProcessor huffmanEncoder req) as [e [He ->]].
  split; [reflexivity|]. split; [reflexivity|].
  rewrite readHeader_throws in He. injection He as <-.
  cbn [failureOf].
  destruct (List.length (DecompressWorker.data req) <? 12)%nat;
    [|destruct (negb _)]; discriminate.
Qed.

(** C1. The round trip cannot be run: the compress worker posts no
    ['complete'] message, whatever the block, the engines and the detector,
    so there is no container to hand to the decompress worker (which posts no
    block either).  The header array has 12 bytes and the write of the
    checksum at offset 9 needs 13. *)
Theorem compress_posts_no_container
        (isStructuredText : bytes -> bool) (bwtProcessor : BWTProcessor)
        (huffmanEncoder : HuffmanEncoder) (req : CompressWorker.request)
        (dreq : DecompressWorker.request) :
  CompressWorker.compress isStructuredText bwtProcessor huffmanEncoder req = None
  /\ DecompressWorker.decompress bwtProcessor huffmanEncoder dreq = None.
Proof.
  split.
  - apply onmessage_posts_no_container.
  - apply decompress_posts_no_block.
Qed.

(** C2. The two workers do not use a header of 13 bytes.  The compress
    worker allocates 12 bytes, so that the payload would start at offset 12,
    and its write of the checksum at offset 9 throws for every block; the
    decompress worker copies 12 bytes, takes the payload from offset 12, and
    its read of the checksum at offset 9 throws for every container laid out
    with the header of 13 bytes. *)
Theorem header_has_twelve_bytes
        (data : bytes) (enc : CompressWorker.encoded)
        (originalSize flags : Z) (payload : bytes) :
  List.length (Uint8Array 12) = 12%nat
  /\ setUint32 (Uint8Array 12) 9 (crc32 (CompressWorker.compressedData enc))
     = Throw offset_out_of_bounds
  /\ CompressWorker.frame data enc = ([], Throw offset_out_of_bounds)
  /\ DecompressWorker.readHeader (container13 originalSize flags payload)
     = ([], Throw offset_out_of_bounds)
  /\ slice_from (container13 originalSize flags payload) 12
     = bigEndian 1 (crc32 payload) ++ payload.
Proof.
  split; [reflexivity|]. split; [reflexivity|]. split; [apply frame_throws|].
  split; [|reflexivity].
  rewrite readHeader_throws.
  destruct (container13_header originalSize flags payload) as [-> ->].
  reflexivity.
Qed.

Lemma flagsOf_degenerate_bit (enc : CompressWorker.encoded) :
  Z.testbit (CompressWorker.flagsOf enc) 1 = CompressWorker.isSpecialCase enc.
Proof. unfold CompressWorker.flagsOf. apply packFlags_bits. Qed.

(** C3, as the code has it. For a block of at least 100 bytes that are all
    equal to the first one, the flags byte the compress worker computes has
    the degenerate bit set exactly when the classifier did not choose the
    transform: the test for repeated bytes is made on the binary path only. *)
Theorem degenerate_flag_on_binary_path_only
        (isStructuredText : bytes -> bool) (bwtProcessor : BWTProcessor)
        (huffmanEncoder : HuffmanEncoder) (data : bytes) (log : list effect)
        (enc : CompressWorker.encoded) :
  (100 <= List.length data)%nat ->
  Forall (eq (nth 0 data x00)) data ->
  CompressWorker.prepare isStructuredText bwtProcessor huffmanEncoder data
  = (log, Normal enc) ->
  Z.testbit (CompressWorker.flagsOf enc) 1
  = negb (CompressWorker.shouldUseBWT isStructuredText data).
Proof.
  intros Hlen Hsame Hrun.
  apply prepare_flags in Hrun as [_ Hspecial].
  rewrite flagsOf_degenerate_bit, Hspecial.
  apply (isAllSame_long data Hlen) in Hsame. rewrite Hsame.
  apply andb_true_r.
Qed.

(** A hundred zero bytes are not text: the binary path is taken and the
    degenerate bit is set. *)
Lemma degenerate_flag_on_binary_path_only_witness :
  exists (log : list effect) (enc : CompressWorker.encoded),
    CompressWorker.prepare noStructure storeBWT storeHuffman (repeat x00 100)
    = (log, Normal enc)
    /\ Z.testbit (CompressWorker.flagsOf enc) 1
       = negb (CompressWorker.shouldUseBWT noStructure (repeat x00 100))
    /\ Z.testbit (CompressWorker.flagsOf enc) 1 = true.
Proof.
  eexists. eexists. split; [vm_compute; reflexivity|].
  split; [|reflexivity].
  eapply (degenerate_flag_on_binary_path_only noStructure storeBWT storeHuffman
            (repeat x00 100)).
  - apply Nat.leb_le. reflexivity.
  - apply Forall_forall. intros b Hb. apply repeat_spec in Hb. now subst b.
  - vm_compute. reflexivity.
Defined.

(** C3, as the claim states it, fails. Ten thousand bytes [0x41] are all
    printable, so the transform path is taken whatever the detector and the
    engines are, and the degenerate bit is never set for them; with the
    storing engines the flags byte is 5 (transform, stored as is). *)
Lemma ten_thousand_A_not_flagged_degenerate :
  (exists (log : list effect) (enc : CompressWorker.encoded),
      CompressWorker.prepare noStructure storeBWT storeHuffman
        (repeat "A"%byte 10000) = (log, Normal enc)
      /\ CompressWorker.flagsOf enc = 5)
  /\ ~ (exists (isStructuredText : bytes -> bool) (bwtProcessor : BWTProcessor)
               (huffmanEncoder : HuffmanEncoder) (log : list effect)
               (enc : CompressWorker.encoded),
           CompressWorker.prepare isStructuredText bwtProcessor huffmanEncoder
             (repeat "A"%byte 10000) = (log, Normal enc)
           /\ Z.testbit (CompressWorker.flagsOf enc) 1 = true).
Proof.
  split.
  - eexists. eexists. split; [vm_compute; reflexivity | reflexivity].
  - intros (ist & bwt & huff & log & enc & Hrun & Hbit).
    apply prepare_flags in Hrun as [_ Hspecial].
    rewrite flagsOf_degenerate_bit, Hspecial in Hbit.
    assert (Htext : CompressWorker.shouldUseBWT ist (repeat "A"%byte 10000) = true).
    { unfold CompressWorker.shouldUseBWT.
      destruct (ist (repeat "A"%byte 10000)); [reflexivity|].
      vm_compute. reflexivity. }
    rewrite Htext in Hbit. discriminate.
Qed.

(** C10. [isAllSame] answers false for every block of fewer than 100 bytes,
    even when all of them are equal; from 100 bytes on it answers true
    exactly when every byte equals the first.  A block of fewer than 100
    bytes is therefore never marked: the flags byte the compress worker
    computes for it has the degenerate bit clear. *)
Theorem isAllSame_threshold (data : bytes) :
  ((List.length data < 100)%nat -> CompressWorker.isAllSame data = false)
  /\ ((100 <= List.length data)%nat ->
      (CompressWorker.isAllSame data = true
       <-> Forall (eq (nth 0 data x00)) data))
  /\ ((List.length data < 100)%nat ->
      forall (isStructuredText : bytes -> bool) (bwtProcessor : BWTProcessor)
             (huffmanEncoder : HuffmanEncoder) (log : list effect)
             (enc : CompressWorker.encoded),
        CompressWorker.prepare isStructuredText bwtProcessor huffmanEncoder data
        = (log, Normal enc) ->
        CompressWorker.isSpecialCase enc = false
        /\ Z.testbit (CompressWorker.flagsOf enc) 1 = false).
Proof.
  split; [apply isAllSame_short|]. split; [apply isAllSame_long|].
  intros Hlen ist bwt huff log enc Hrun.
  apply prepare_flags in Hrun as [_ Hspecial].
  rewrite flagsOf_degenerate_bit, Hspecial, (isAllSame_short data Hlen).
  now rewrite andb_false_r.
Qed.

(** Ninety-nine equal bytes are not a special case, a hundred are, and a
    hundred bytes with one odd byte are not. *)
Example isAllSame_examples :
  CompressWorker.isAllSame (repeat x00 99) = false
  /\ CompressWorker.isAllSame (repeat x00 100) = true
  /\ CompressWorker.isAllSame (repeat x00 99 ++ [x01]) = false
  /\ CompressWorker.isAllSame [] = false.
Proof. repeat split; reflexivity. Qed.

Section AfterHeaderFacts.

Variable bwtProcessor : BWTProcessor.
Variable huffmanEncoder : HuffmanEncoder.

(** Once the header is read, the fractions posted go up from 0.2, and the
    run ends with 1.0 and the ['complete'] message unless the checksum test or
    an engine throws. *)
Lemma afterHeader_log (req : DecompressWorker.request)
      (h : DecompressWorker.header) :
  wellOrdered
    (0.05%float
     :: progressOf
          (fst (DecompressWorker.afterHeader bwtProcessor huffmanEncoder req h)))
  = true
  /\ endsAtOne (fst (DecompressWorker.afterHeader bwtProcessor huffmanEncoder req h))
  /\ (snd (DecompressWorker.afterHeader bwtProcessor huffmanEncoder req h)
      = Normal tt ->
      completed (fst (DecompressWorker.afterHeader bwtProcessor huffmanEncoder req h))
      = true).
Proof.
  unfold endsAtOne, DecompressWorker.afterHeader, DecompressWorker.verifyChecksum,
    DecompressWorker.decodeStage, DecompressWorker.checkSize.
  split_paths; repeat split; try reflexivity; discriminate.
Qed.

End AfterHeaderFacts.

(** C9. Within one invocation of either worker the fractions posted with the
    progress messages lie in [0, 1] and never decrease, and an invocation that
    posts its ['complete'] message has posted 1.0 last.  This holds of every
    run of [onmessage]; since no run gets past the header, it is also stated
    of what the handlers do behind it: of the first half of the compress
    handler followed by its last two statements, and of the decompress
    handler from the header on. *)
Theorem progress_never_decreases
        (isStructuredText : bytes -> bool) (bwtProcessor : BWTProcessor)
        (huffmanEncoder : HuffmanEncoder)
        (creq : CompressWorker.request) (dreq : DecompressWorker.request) :
  (wellOrdered (progressOf (CompressWorker.onmessage isStructuredText bwtProcessor
                              huffmanEncoder creq)) = true
   /\ endsAtOne (CompressWorker.onmessage isStructuredText bwtProcessor
                   huffmanEncoder creq))
  /\ (wellOrdered (progressOf (DecompressWorker.onmessage bwtProcessor
                                 huffmanEncoder dreq)) = true
      /\ endsAtOne (DecompressWorker.onmessage bwtProcessor huffmanEncoder dreq))
  /\ (forall (enc : CompressWorker.encoded) (finalOutput : bytes),
         wellOrdered
           (progressOf
              (fst (CompressWorker.prepare isStructuredText bwtProcessor
                      huffmanEncoder (CompressWorker.data creq))
               ++ fst (CompressWorker.complete creq enc finalOutput))) = true
         /\ last (progressOf
                    (fst (CompressWorker.prepare isStructuredText bwtProcessor
                            huffmanEncoder (CompressWorker.data creq))
                     ++ fst (CompressWorker.complete creq enc finalOutput)))
                 0%float = 1%float)
  /\ (forall h : DecompressWorker.header,
         wellOrdered
           (0.05%float
            :: progressOf
                 (fst (DecompressWorker.afterHeader bwtProcessor huffmanEncoder
                         dreq h))) = true
         /\ endsAtOne (fst (DecompressWorker.afterHeader bwtProcessor
                              huffmanEncoder dreq h))).
Proof.
  pose proof (prepare_log isStructuredText bwtProcessor huffmanEncoder
                (CompressWorker.data creq)) as (_ & Hdone & Hsorted & Hunit).
  split; [|split; [|split]].
  - destruct (onmessage_log isStructuredText bwtProcessor huffmanEncoder creq)
      as [-> | [e ->]]; [split; [reflexivity | discriminate]|].
    unfold wellOrdered, endsAtOne.
    rewrite progressOf_app, completed_app, Hdone.
    cbn [progressOf completed existsb isComplete orb]. rewrite app_nil_r.
    rewrite Hunit, (nondecreasing_init _ _ Hsorted).
    split; [reflexivity | discriminate].
  - destruct (decompress_log bwtProcessor huffmanEncoder dreq) as [e [_ ->]].
    split; [reflexivity | discriminate].
  - intros enc finalOutput. unfold wellOrdered.
    rewrite progressOf_app.
    change (progressOf (fst (CompressWorker.complete creq enc finalOutput)))
      with [1%float].
    rewrite Hsorted, last_last. unfold withinUnit in *.
    rewrite forallb_app, Hunit. split; reflexivity.
  - intros h.
    destruct (afterHeader_log bwtProcessor huffmanEncoder dreq h) as (H1 & H2 & _).
    split; assumption.
Qed.

(** C4. A container with one payload bit flipped is rejected, but not by the
    checksum: the worker throws at the read of the checksum field, before it
    computes the checksum of the payload, and it does the same for the
    container that was not corrupted.  No request at all is answered with the
    checksum error. *)
Theorem decompress_never_reaches_checksum
        (bwtProcessor : BWTProcessor) (huffmanEncoder : HuffmanEncoder)
        (req : DecompressWorker.request) (name : string) (size : Z) :
  failureOf (DecompressWorker.onmessage bwtProcessor huffmanEncoder req)
  <> Some ("Error en descompresión: " ++ exn_message checksumMismatch)%string
  /\ DecompressWorker.onmessage bwtProcessor huffmanEncoder
       {| DecompressWorker.data := flipBit (container13 1 4 [x00]) 13 0;
          DecompressWorker.fileName := name;
          DecompressWorker.fileSize := size |}
     = [Post (Progress 0.05 "Validando archivo");
        Post (Failure
                "Error en descompresión: Offset is outside the bounds of the DataView"
                name)]
  /\ DecompressWorker.onmessage bwtProcessor huffmanEncoder
       {| DecompressWorker.data := container13 1 4 [x00];
          DecompressWorker.fileName := name;
          DecompressWorker.fileSize := size |}
     = [Post (Progress 0.05 "Validando archivo");
        Post (Failure
                "Error en descompresión: Offset is outside the bounds of the DataView"
                name)].
Proof.
  split; [apply decompress_posts_no_block|].
  split; vm_compute; reflexivity.
Qed.

(** The container of the payload [00] and its copy with one bit flipped,
    byte by byte. *)
Example flipped_container :
  container13 1 4 [x00]
  = [x48; x53; x36; x44; x00; x00; x00; x01; x04; xd2; x02; xef; x8d; x00]
  /\ flipBit (container13 1 4 [x00]) 13 0
     = [x48; x53; x36; x44; x00; x00; x00; x01; x04; xd2; x02; xef; x8d; x01].
Proof. split; vm_compute; reflexivity. Qed.

(** C5. No container is produced whose size could be compared with the
    bound.  For the block [00 01 02 03] and the storing engines the ratio is
    1, the stored-as-is fallback is taken, and the framing throws. *)
Theorem fallback_then_no_container (name : string) (size : Z) :
  CompressWorker.onmessage noStructure storeBWT storeHuffman
    {| CompressWorker.data := [x00; x01; x02; x03];
       CompressWorker.fileName := name;
       CompressWorker.fileSize := 4 |}
  = [Post (Progress 0.05 "Analizando datos");
     Post (Progress 0.2 "Comprimiendo binario");
     Post (Progress 0.6 "Compresión mínima, usando datos originales");
     Post (Progress 0.85 "Empaquetando resultado");
     Post (Failure
             "Error en compresión: Offset is outside the bounds of the DataView"
             name)]
  /\ CompressWorker.compress noStructure storeBWT storeHuffman
       {| CompressWorker.data := [x00; x01; x02; x03];
          CompressWorker.fileName := name;
          CompressWorker.fileSize := 4 |} = None.
Proof. split; vm_compute; reflexivity. Qed.

(** C6. For the empty block the ratio is [0/0], which is not above 0.95, and
    the block is shorter than 100 bytes: with an encoder that returns the
    empty stream the flags byte is 0, neither stored-as-is nor degenerate.
    No container is posted for it, whatever the engines are. *)
Theorem empty_block_not_framed
        (isStructuredText : bytes -> bool) (bwtProcessor : BWTProcessor)
        (huffmanEncoder : HuffmanEncoder) (name : string) (size : Z) :
  CompressWorker.compress isStructuredText bwtProcessor huffmanEncoder
    {| CompressWorker.data := []; CompressWorker.fileName := name;
       CompressWorker.fileSize := size |} = None
  /\ CompressWorker.prepare noStructure storeBWT storeHuffman []
     = ([Post (Progress 0.05 "Analizando datos");
         Post (Progress 0.2 "Comprimiendo binario");
         Post (Progress 0.85 "Empaquetando resultado")],
        Normal {| CompressWorker.compressedData := [];
                  CompressWorker.useBWT := false;
                  CompressWorker.isSpecialCase := false;
                  CompressWorker.isUncompressed := false;
                  CompressWorker.compressionRatio := nan |})
  /\ CompressWorker.packFlags false false false = 0.
Proof.
  split; [apply onmessage_posts_no_container|].
  split; vm_compute; reflexivity.
Qed.

(** C8. A container whose checksum matches and whose size field disagrees
    with its payload is not clamped and returned: like every container laid
    out with the header of 13 bytes it is answered with the error of the
    header read, no block and no warning. *)
Theorem size_check_not_reached
        (bwtProcessor : BWTProcessor) (huffmanEncoder : HuffmanEncoder)
        (originalSize flags : Z) (payload : bytes) (name : string) (size : Z) :
  DecompressWorker.onmessage bwtProcessor huffmanEncoder
    {| DecompressWorker.data := container13 originalSize flags payload;
       DecompressWorker.fileName := name;
       DecompressWorker.fileSize := size |}
  = [Post (Progress 0.05 "Validando archivo");
     Post (Failure
             "Error en descompresión: Offset is outside the bounds of the DataView"
             name)]
  /\ DecompressWorker.decompress bwtProcessor huffmanEncoder
       {| DecompressWorker.data := container13 originalSize flags payload;
          DecompressWorker.fileName := name;
          DecompressWorker.fileSize := size |} = None.
Proof.
  assert (Hlog : DecompressWorker.onmessage bwtProcessor huffmanEncoder
            {| DecompressWorker.data := container13 originalSize flags payload;
               DecompressWorker.fileName := name;
               DecompressWorker.fileSize := size |}
          = [Post (Progress 0.05 "Validando archivo");
             Post (Failure
                     "Error en descompresión: Offset is outside the bounds of the DataView"
                     name)]).
  { destruct (decompress_log bwtProcessor huffmanEncoder
                {| DecompressWorker.data := container13 originalSize flags payload;
                   DecompressWorker.fileName := name;
                   DecompressWorker.fileSize := size |}) as [e [He ->]].
    rewrite readHeader_throws in He. cbn [DecompressWorker.data] in He.
    destruct (container13_header originalSize flags payload) as [Hl Hm].
    rewrite Hl, Hm in He. injection He as <-. reflexivity. }
  split; [exact Hlog|].
  unfold DecompressWorker.decompress. now rewrite Hlog.
Qed.

(** A container whose size field says 2 for the payload [ABC], byte by byte,
    and what the worker answers to it. *)
Example mismatched_container (bwtProcessor : BWTProcessor)
        (huffmanEncoder : HuffmanEncoder) :
  container13 2 4 ["A"; "B"; "C"]%byte
  = [x48; x53; x36; x44; x00; x00; x00; x02; x04; xa3; x83; x03; x48;
     x41; x42; x43]
  /\ DecompressWorker.decompress bwtProcessor huffmanEncoder
       {| DecompressWorker.data := container13 2 4 ["A"; "B"; "C"]%byte;
          DecompressWorker.fileName := "abc.hs6d";
          DecompressWorker.fileSize := 16 |} = None.
Proof. split; vm_compute; reflexivity. Qed.

(** ** The stages behind the header read

    The stages of the decompress worker that follow [readHeader] are never
    run, but each is a function of its own and does what its comment says. *)

(** The size check truncates a result that is too long, leaves a shorter one
    as it is (it never adds a byte), does not throw, and warns exactly when
    the length differs from the size field. *)
Theorem checkSize_clamps (h : DecompressWorker.header) (originalData : bytes) :
  exists (log : list effect) (out : bytes),
    DecompressWorker.checkSize h originalData = (log, Normal out)
    /\ out = firstn (List.length out) originalData
    /\ (DecompressWorker.originalSize h < Z.of_nat (List.length originalData) ->
        out = firstn (Z.to_nat (DecompressWorker.originalSize h)) originalData)
    /\ (Z.of_nat (List.length originalData) <= DecompressWorker.originalSize h ->
        out = originalData)
    /\ (warningsOf log = []
        <-> Z.of_nat (List.length originalData) = DecompressWorker.originalSize h).
Proof.
  unfold DecompressWorker.checkSize.
  destruct (Z.of_nat (List.length originalData) =? DecompressWorker.originalSize h)
    eqn:Hsame; cbn [negb].
  - apply Z.eqb_eq in Hsame.
    exists [], originalData. split; [reflexivity|].
    split; [now rewrite firstn_all|].
    split; [lia|]. split; [reflexivity|]. split; trivial.
  - apply Z.eqb_neq in Hsame. run_worker.
    destruct (DecompressWorker.originalSize h <? Z.of_nat (List.length originalData))
      eqn:Hlong; run_worker.
    + apply Z.ltb_lt in Hlong.
      eexists. eexists. split; [reflexivity|].
      rewrite slice_prefix.
      split; [rewrite length_firstn; f_equal; lia|].
      split; [reflexivity|]. split; [lia|].
      cbn [warningsOf]. split; [discriminate | contradiction].
    + apply Z.ltb_ge in Hlong.
      eexists. eexists. split; [reflexivity|].
      split; [now rewrite firstn_all|].
      split; [lia|]. split; [reflexivity|].
      cbn [warningsOf]. split; [discriminate | contradiction].
Qed.

(** ** The checksum

    [crc32] is read on unsigned 32-bit states; each step is injective in the
    state and in the byte, because the top byte of a table entry determines
    its index. *)

Lemma toUint32_range z : 0 <= toUint32 z < 2 ^ 32.
Proof. unfold toUint32. apply Z.mod_pos_bound. reflexivity. Qed.

Lemma toUint32_small z : 0 <= z < 2 ^ 32 -> toUint32 z = z.
Proof. intros H. unfold toUint32. now apply Z.mod_small. Qed.

Lemma toUint32_toInt32 z : toUint32 (toInt32 z) = toUint32 z.
Proof.
  unfold toInt32. pose proof (toUint32_range z) as H.
  destruct (toUint32 z <? 2 ^ 31).
  - now apply toUint32_small.
  - unfold toUint32 in *.
    rewrite <- (Z.mod_add _ 1 (2 ^ 32)) by discriminate.
    replace (z mod 2 ^ 32 - 2 ^ 32 + 1 * 2 ^ 32) with (z mod 2 ^ 32) by lia.
    apply Z.mod_mod. discriminate.
Qed.

Lemma lxor_mod_pow2 a b k : 0 <= k ->
  Z.lxor a b mod 2 ^ k = Z.lxor (a mod 2 ^ k) (b mod 2 ^ k).
Proof.
  intros Hk. apply Z.bits_inj'. intros n Hn.
  rewrite Z.lxor_spec.
  destruct (Z.lt_ge_cases n k) as [Hlt|Hge].
  - rewrite !Z.mod_pow2_bits_low by lia. apply Z.lxor_spec.
  - rewrite !Z.mod_pow2_bits_high by lia. reflexivity.
Qed.

Lemma toUint32_lxor a b : toUint32 (Z.lxor a b) = Z.lxor (toUint32 a) (toUint32 b).
Proof. unfold toUint32. apply lxor_mod_pow2. discriminate. Qed.

Lemma toUint32_land a b : toUint32 (Z.land a b) = Z.land (toUint32 a) (toUint32 b).
Proof.
  unfold toUint32. apply Z.bits_inj'. intros n Hn.
  rewrite Z.land_spec.
  destruct (Z.lt_ge_cases n 32) as [Hlt|Hge].
  - rewrite !Z.mod_pow2_bits_low by lia. apply Z.land_spec.
  - rewrite !Z.mod_pow2_bits_high by lia. reflexivity.
Qed.

Lemma js_xor_unsigned a b : toUint32 (js_xor a b) = Z.lxor (toUint32 a) (toUint32 b).
Proof. unfold js_xor. now rewrite toUint32_toInt32, toUint32_lxor, !toUint32_toInt32. Qed.

Lemma js_and_unsigned a b : toUint32 (js_and a b) = Z.land (toUint32 a) (toUint32 b).
Proof. unfold js_and. now rewrite toUint32_toInt32, toUint32_land, !toUint32_toInt32. Qed.

Lemma byteValue_range b : 0 <= byteValue b < 256.
Proof.
  unfold byteValue. pose proof (Byte.to_N_bounded b). lia.
Qed.

Lemma land_255_range z : 0 <= Z.land z 255 < 256.
Proof.
  change 255 with (Z.ones 8). rewrite Z.land_ones by lia.
  apply Z.mod_pos_bound. reflexivity.
Qed.

Lemma toInt32_small z : 0 <= z < 2 ^ 31 -> toInt32 z = z.
Proof.
  intros H. unfold toInt32. rewrite toUint32_small by lia.
  destruct (z <? 2 ^ 31) eqn:E; [reflexivity|]. apply Z.ltb_ge in E. lia.
Qed.

Lemma table_range :
  forallb (fun t => (0 <=? t) && (t <? 2 ^ 32)) CRC32_TABLE = true.
Proof. vm_compute. reflexivity. Qed.

Lemma table_entry_range i : 0 <= nth i CRC32_TABLE 0 < 2 ^ 32.
Proof.
  destruct (Nat.lt_ge_cases i (List.length CRC32_TABLE)) as [Hlt|Hge].
  - pose proof table_range as H. rewrite forallb_forall in H.
    specialize (H _ (nth_In _ 0 Hlt)).
    apply andb_prop in H as [H1 H2]. apply Z.leb_le in H1. apply Z.ltb_lt in H2. lia.
  - rewrite nth_overflow by exact Hge. lia.
Qed.

Lemma crcStep_unsigned crc b :
  toUint32 (crcStep crc b) = crcNext (toUint32 crc) (byteValue b).
Proof.
  unfold crcStep, crcNext.
  pose proof (byteValue_range b) as Hb.
  pose proof (toUint32_range crc) as Hu.
  assert (Hidx : js_and (js_xor crc (byteValue b)) 255
                 = Z.land (Z.lxor (toUint32 crc) (byteValue b)) 255).
  { rewrite <- (toUint32_small (byteValue b)) at 2 by lia.
    rewrite <- js_xor_unsigned.
    transitivity (toUint32 (js_and (js_xor crc (byteValue b)) 255)).
    - unfold js_and at 2. rewrite toUint32_toInt32.
      unfold js_and. change (toInt32 255) with 255.
      pose proof (land_255_range (toInt32 (js_xor crc (byteValue b)))) as Hr.
      rewrite toInt32_small by lia. rewrite toUint32_small by lia. reflexivity.
    - rewrite js_and_unsigned. reflexivity. }
  rewrite Hidx, js_xor_unsigned.
  unfold js_ushr. change (8 mod 32) with 8.
  rewrite (toUint32_small (nth _ _ _)) by apply table_entry_range.
  rewrite (toUint32_small (Z.shiftr _ _)); [reflexivity|].
  rewrite Z.shiftr_div_pow2 by lia. split.
  - apply Z.div_pos; lia.
  - apply Z.div_lt_upper_bound; lia.
Qed.

Lemma crcNext_range u v : 0 <= u < 2 ^ 32 -> 0 <= crcNext u v < 2 ^ 32.
Proof.
  intros Hu. unfold crcNext.
  rewrite <- (toUint32_small (nth _ CRC32_TABLE 0)) by apply table_entry_range.
  rewrite <- (toUint32_small (Z.shiftr u 8)).
  - rewrite <- toUint32_lxor. apply toUint32_range.
  - rewrite Z.shiftr_div_pow2 by lia. split.
    + apply Z.div_pos; lia.
    + apply Z.div_lt_upper_bound; lia.
Qed.

Lemma topByteIndex_checks :
  forallb (fun i => nth (Z.to_nat (Z.shiftr (nth (Z.to_nat i) CRC32_TABLE 0) 24))
                        topByteIndex 0 =? i)
          (map Z.of_nat (seq 0 256)) = true.
Proof. vm_compute. reflexivity. Qed.

Lemma table_top_byte i j :
  0 <= i < 256 -> 0 <= j < 256 ->
  Z.shiftr (nth (Z.to_nat i) CRC32_TABLE 0) 24
  = Z.shiftr (nth (Z.to_nat j) CRC32_TABLE 0) 24 ->
  i = j.
Proof.
  intros Hi Hj Heq.
  pose proof topByteIndex_checks as H. rewrite forallb_forall in H.
  assert (Hin : forall k, 0 <= k < 256 -> In k (map Z.of_nat (seq 0 256))).
  { intros k Hk. rewrite <- (Z2Nat.id k) by lia.
    apply in_map, in_seq. lia. }
  pose proof (H i (Hin i Hi)) as H1. pose proof (H j (Hin j Hj)) as H2.
  apply Z.eqb_eq in H1, H2. rewrite Heq in H1. congruence.
Qed.

Lemma lxor_cancel_l a b c : Z.lxor a b = Z.lxor a c -> b = c.
Proof.
  intros H. apply (f_equal (Z.lxor a)) in H.
  now rewrite <- !Z.lxor_assoc, Z.lxor_nilpotent, !Z.lxor_0_l in H.
Qed.

(** Two steps with the same result used the same table entry and had the same
    upper 24 bits of state. *)
Lemma crcNext_eq u v u' v' :
  0 <= u < 2 ^ 32 -> 0 <= u' < 2 ^ 32 ->
  crcNext u v = crcNext u' v' ->
  Z.land (Z.lxor u v) 255 = Z.land (Z.lxor u' v') 255
  /\ Z.shiftr u 8 = Z.shiftr u' 8.
Proof.
  intros Hu Hu' Heq. unfold crcNext in Heq.
  assert (Htop : forall w, 0 <= w < 2 ^ 32 -> Z.shiftr (Z.shiftr w 8) 24 = 0).
  { intros w Hw. rewrite Z.shiftr_shiftr by lia. cbn [Z.add Pos.add Pos.succ].
    rewrite Z.shiftr_div_pow2 by lia. apply Z.div_small. lia. }
  assert (Hidx : Z.land (Z.lxor u v) 255 = Z.land (Z.lxor u' v') 255).
  { apply table_top_byte; try apply land_255_range.
    apply (f_equal (fun z => Z.shiftr z 24)) in Heq.
    now rewrite !Z.shiftr_lxor, !Htop, !Z.lxor_0_r in Heq. }
  split; [exact Hidx|].
  rewrite Hidx in Heq. now apply lxor_cancel_l in Heq.
Qed.

Lemma low_byte_lxor u v : 0 <= v < 256 ->
  Z.land (Z.lxor u v) 255 = Z.lxor (u mod 256) v.
Proof.
  intros Hv. change 255 with (Z.ones 8). rewrite Z.land_ones by lia.
  rewrite lxor_mod_pow2 by lia.
  change (2 ^ 8) with 256. now rewrite (Z.mod_small v) by lia.
Qed.

Lemma crcNext_inj_state u u' v :
  0 <= u < 2 ^ 32 -> 0 <= u' < 2 ^ 32 -> 0 <= v < 256 ->
  crcNext u v = crcNext u' v -> u = u'.
Proof.
  intros Hu Hu' Hv Heq.
  destruct (crcNext_eq u v u' v Hu Hu' Heq) as [Hlow Hhigh].
  rewrite !low_byte_lxor in Hlow by exact Hv.
  rewrite (Z.lxor_comm (u mod 256)), (Z.lxor_comm (u' mod 256)) in Hlow.
  apply lxor_cancel_l in Hlow.
  rewrite !Z.shiftr_div_pow2 in Hhigh by lia. change (2 ^ 8) with 256 in Hhigh.
  rewrite (Z.div_mod u 256), (Z.div_mod u' 256) by lia. congruence.
Qed.

Lemma crcNext_inj_byte u v v' :
  0 <= u < 2 ^ 32 -> 0 <= v < 256 -> 0 <= v' < 256 ->
  crcNext u v = crcNext u v' -> v = v'.
Proof.
  intros Hu Hv Hv' Heq.
  destruct (crcNext_eq u v u v' Hu Hu Heq) as [Hlow _].
  rewrite !low_byte_lxor in Hlow by assumption.
  now apply lxor_cancel_l in Hlow.
Qed.

Lemma fold_left_cons {A B : Type} (f : A -> B -> A) (b : B) (l : list B) (a : A) :
  fold_left f (b :: l) a = fold_left f l (f a b).
Proof. reflexivity. Qed.

Lemma crcRun_unsigned l : forall crc,
  toUint32 (fold_left crcStep l crc) = crcRun l (toUint32 crc).
Proof.
  induction l as [|b l IH]; intros crc; [reflexivity|].
  unfold crcRun. rewrite !fold_left_cons. fold (crcRun l).
  rewrite <- crcStep_unsigned. apply IH.
Qed.

Lemma crcRun_range l : forall u, 0 <= u < 2 ^ 32 -> 0 <= crcRun l u < 2 ^ 32.
Proof.
  induction l as [|b l IH]; intros u Hu; [exact Hu|].
  apply IH, crcNext_range, Hu.
Qed.

Lemma crcRun_inj l : forall u u',
  0 <= u < 2 ^ 32 -> 0 <= u' < 2 ^ 32 -> crcRun l u = crcRun l u' -> u = u'.
Proof.
  induction l as [|b l IH]; intros u u' Hu Hu' Heq; [exact Heq|].
  apply IH in Heq; try now apply crcNext_range.
  now apply crcNext_inj_state in Heq; try apply byteValue_range.
Qed.

Lemma crcRun_app l1 l2 u : crcRun (l1 ++ l2) u = crcRun l2 (crcRun l1 u).
Proof. apply fold_left_app. Qed.

Lemma byteValue_inj b b' : byteValue b = byteValue b' -> b = b'.
Proof.
  unfold byteValue. intros H. apply N2Z.inj in H.
  pose proof (Byte.of_to_N b) as H1. rewrite H, Byte.of_to_N in H1. congruence.
Qed.

Lemma firstn_plus {A} (m k : nat) : forall l : list A,
  firstn m l ++ firstn k (skipn m l) = firstn (m + k) l.
Proof.
  induction m as [|m IH]; intros l; [reflexivity|].
  destruct l as [|a l]; cbn [firstn skipn Nat.add app].
  - now rewrite firstn_nil.
  - now rewrite IH.
Qed.

Lemma slice_app (a : bytes) (i j k : nat) :
  (i <= j <= k)%nat -> slice a i j ++ slice a j k = slice a i k.
Proof.
  intros H. unfold slice.
  replace (skipn j a) with (skipn (j - i) (skipn i a))
    by (rewrite skipn_skipn; f_equal; lia).
  rewrite firstn_plus. f_equal. lia.
Qed.

Lemma slice_beyond (a : bytes) (i j : nat) : (j <= i)%nat -> slice a i j = [].
Proof. intros H. unfold slice. now replace (j - i)%nat with 0%nat by lia. Qed.

Lemma slice_whole (a : bytes) (n : nat) :
  (List.length a <= n)%nat -> slice a 0 (Nat.min n (List.length a)) = a.
Proof.
  intros H. rewrite Nat.min_r by exact H.
  unfold slice. rewrite Nat.sub_0_r. apply firstn_all.
Qed.

Lemma chunkSize_pos : (0 < chunkSize)%nat.
Proof. apply Nat.ltb_lt. vm_compute. reflexivity. Qed.

(** The chunked loops are one pass over the array. *)
Lemma crcChunks_slice (data : bytes) (n : nat) : forall (chunk : nat) (crc : Z),
  crcChunks data n chunk crc
  = fold_left crcStep
      (slice data (chunk * chunkSize)
             (Nat.min ((chunk + n) * chunkSize) (List.length data))) crc.
Proof.
  induction n as [|n IH]; intros chunk crc.
  - rewrite Nat.add_0_r, slice_beyond by apply Nat.le_min_l. reflexivity.
  - cbn [crcChunks]. rewrite IH, <- fold_left_app. f_equal.
    replace (S chunk + n)%nat with (chunk + S n)%nat by lia.
    pose proof chunkSize_pos as Hpos.
    assert (Hnext : (S chunk * chunkSize = chunk * chunkSize + chunkSize)%nat) by lia.
    assert (Hlast : (S chunk * chunkSize <= (chunk + S n) * chunkSize)%nat)
      by (apply Nat.mul_le_mono_r; lia).
    rewrite Hnext in *.
    destruct (Nat.le_gt_cases (chunk * chunkSize + chunkSize) (List.length data))
      as [Hin|Hout].
    + rewrite (Nat.min_l _ _ Hin). apply slice_app. lia.
    + rewrite (Nat.min_r (chunk * chunkSize + chunkSize)) by lia.
      rewrite (Nat.min_r ((chunk + S n) * chunkSize)) by lia.
      rewrite (slice_beyond data (chunk * chunkSize + chunkSize)) by lia.
      apply app_nil_r.
Qed.

Lemma crc32_one_pass (data : bytes) :
  data <> [] ->
  crc32 data = Z.lxor (crcRun data (2 ^ 32 - 1)) (2 ^ 32 - 1).
Proof.
  intros Hne. unfold crc32.
  destruct (List.length data =? 0)%nat eqn:Hlen.
  - apply Nat.eqb_eq, length_zero_iff_nil in Hlen. contradiction.
  - rewrite crcChunks_slice. cbn [Nat.mul Nat.add].
    rewrite slice_whole.
    + unfold js_ushr. change (0 mod 32) with 0. rewrite Z.shiftr_0_r.
      rewrite js_xor_unsigned, crcRun_unsigned. reflexivity.
    + pose proof chunkSize_pos as Hpos.
      pose proof (Nat.div_mod_eq (List.length data + chunkSize - 1) chunkSize) as Hd.
      pose proof (Nat.mod_upper_bound (List.length data + chunkSize - 1) chunkSize) as Hm.
      rewrite Nat.mul_comm. lia.
Qed.

(** The checksum tells apart two arrays that differ in one byte. *)
Theorem crc32_detects_one_byte (before after : bytes) (b b' : byte) :
  b <> b' -> crc32 (before ++ b :: after) <> crc32 (before ++ b' :: after).
Proof.
  intros Hne Heq.
  rewrite !crc32_one_pass in Heq by (now destruct before).
  apply (f_equal (fun z => Z.lxor z (2 ^ 32 - 1))) in Heq.
  rewrite !Z.lxor_assoc, !Z.lxor_nilpotent, !Z.lxor_0_r in Heq.
  rewrite !crcRun_app in Heq. cbn [crcRun fold_left] in Heq.
  fold (crcRun after) in Heq. fold (crcRun before (2 ^ 32 - 1)) in Heq.
  assert (Hu : 0 <= crcRun before (2 ^ 32 - 1) < 2 ^ 32)
    by (apply crcRun_range; lia).
  apply crcRun_inj in Heq; try now apply crcNext_range.
  apply crcNext_inj_byte in Heq; try apply byteValue_range; try exact Hu.
  apply byteValue_inj in Heq. contradiction.
Qed.

(** A flipped bit changes the byte. *)
Lemma byteValue_toUint8 (z : Z) : byteValue (toUint8 z) = z mod 256.
Proof.
  unfold toUint8, byteValue.
  pose proof (Z.mod_pos_bound z 256 eq_refl) as Hr.
  destruct (Byte.of_N (Z.to_N (z mod 256))) as [b|] eqn:Hb.
  - apply Byte.to_of_N in Hb. rewrite Hb. lia.
  - apply Byte.of_N_None_iff in Hb. lia.
Qed.

Lemma flipped_byte_differs (b : byte) (bit : Z) :
  0 <= bit < 8 -> toUint8 (Z.lxor (byteValue b) (Z.shiftl 1 bit)) <> b.
Proof.
  intros Hbit Heq. apply (f_equal byteValue) in Heq.
  rewrite byteValue_toUint8 in Heq.
  pose proof (byteValue_range b) as Hb.
  assert (Hpow : 0 < Z.shiftl 1 bit < 256).
  { rewrite Z.shiftl_1_l. split; [apply Z.pow_pos_nonneg; lia|].
    change 256 with (2 ^ 8). apply Z.pow_lt_mono_r; lia. }
  change 256 with (2 ^ 8) in Heq. rewrite lxor_mod_pow2 in Heq by lia.
  change (2 ^ 8) with 256 in Heq.
  rewrite !Z.mod_small in Heq by lia.
  rewrite <- (Z.lxor_0_r (byteValue b)) in Heq at 2.
  apply lxor_cancel_l in Heq. lia.
Qed.

Lemma flipBit_split (a : bytes) (index : nat) (bit : Z) (b : byte) :
  nth_error a index = Some b ->
  a = firstn index a ++ b :: skipn (S index) a
  /\ flipBit a index bit
     = firstn index a
       ++ toUint8 (Z.lxor (byteValue b) (Z.shiftl 1 bit)) :: skipn (S index) a.
Proof.
  intros Hnth. split.
  - symmetry. now apply firstn_skipn_middle.
  - unfold flipBit. now rewrite Hnth.
Qed.

(** One flipped bit anywhere in an array changes its checksum. *)
Theorem crc32_detects_bit_flip (a : bytes) (index : nat) (bit : Z) :
  (index < List.length a)%nat -> 0 <= bit < 8 ->
  crc32 (flipBit a index bit) <> crc32 a.
Proof.
  intros Hindex Hbit.
  destruct (nth_error a index) as [b|] eqn:Hnth;
    [|apply nth_error_None in Hnth; lia].
  destruct (flipBit_split a index bit b Hnth) as [Ha Hflip].
  rewrite Hflip. rewrite Ha at 3.
  apply crc32_detects_one_byte, flipped_byte_differs, Hbit.
Qed.

Lemma crc32_detects_bit_flip_witness :
  crc32 (flipBit [x48; x53; x36; x44] 2 5) <> crc32 [x48; x53; x36; x44].
Proof.
  apply (crc32_detects_bit_flip [x48; x53; x36; x44] 2 5); simpl; lia.
Defined.

(** The checksum test of the decompress worker (lines 43 to 47), taken by
    itself, rejects every container that differs in one payload bit from one
    it accepts. *)
Theorem verifyChecksum_detects_bit_flip
        (data : bytes) (h : DecompressWorker.header) (index : nat) (bit : Z) :
  (12 <= index < List.length data)%nat -> 0 <= bit < 8 ->
  DecompressWorker.verifyChecksum data h = ([], Normal (slice_from data 12)) ->
  DecompressWorker.verifyChecksum (flipBit data index bit) h
  = ([], Throw checksumMismatch).
Proof.
  intros Hindex Hbit. unfold DecompressWorker.verifyChecksum.
  destruct (crc32 (slice_from data 12) =? DecompressWorker.checksum h) eqn:Hok;
    [|discriminate].
  intros _. apply Z.eqb_eq in Hok.
  destruct (nth_error data index) as [b|] eqn:Hnth;
    [|apply nth_error_None in Hnth; lia].
  destruct (flipBit_split data index bit b Hnth) as [Ha Hflip].
  assert (Hpre : List.length (firstn index data) = index)
    by (rewrite length_firstn; lia).
  assert (Hne : crc32 (slice_from (flipBit data index bit) 12)
                <> crc32 (slice_from data 12)).
  { rewrite Hflip. rewrite Ha at 3. unfold slice_from.
    rewrite !skipn_app, Hpre.
    replace (12 - index)%nat with 0%nat by lia. cbn [skipn].
    apply crc32_detects_one_byte, flipped_byte_differs, Hbit. }
  rewrite <- Hok. apply Z.eqb_neq in Hne. now rewrite Hne.
Qed.

Lemma verifyChecksum_detects_bit_flip_witness :
  DecompressWorker.verifyChecksum
    (flipBit ([x48; x53; x36; x44; x00; x00; x00; x01; x04; x00; x00; x00]
              ++ [x41]) 12 0)
    {| DecompressWorker.originalSize := 1; DecompressWorker.flags := 4;
       DecompressWorker.checksum := crc32 [x41];
       DecompressWorker.usedBWT := false; DecompressWorker.isSpecialCase := false;
       DecompressWorker.isUncompressed := true |}
  = ([], Throw checksumMismatch).
Proof.
  apply verifyChecksum_detects_bit_flip.
  - simpl. lia.
  - lia.
  - vm_compute. reflexivity.
Defined.

(** ** The stored-as-is fallback *)

(** When the first half of the compress handler returns, the stored-as-is
    flag is the outcome of the test [compressionRatio > 0.95], it is bit 2 of
    the flags byte, and with it set the payload is the block itself. *)
Theorem fallback_stores_block
        (isStructuredText : bytes -> bool) (bwtProcessor : BWTProcessor)
        (huffmanEncoder : HuffmanEncoder) (data : bytes) (log : list effect)
        (enc : CompressWorker.encoded) :
  CompressWorker.prepare isStructuredText bwtProcessor huffmanEncoder data
  = (log, Normal enc) ->
  CompressWorker.isUncompressed enc
  = (0.95 <? CompressWorker.compressionRatio enc)%float
  /\ Z.testbit (CompressWorker.flagsOf enc) 2 = CompressWorker.isUncompressed enc
  /\ (CompressWorker.isUncompressed enc = true ->
      CompressWorker.compressedData enc = data).
Proof.
  unfold CompressWorker.flagsOf.
  rewrite (proj2 (proj2 (packFlags_bits _ _ _))).
  unfold CompressWorker.prepare, CompressWorker.encodeStage.
  split_paths; intros [= <- <-]; cbn [CompressWorker.isUncompressed
    CompressWorker.compressionRatio CompressWorker.compressedData];
    repeat split; try discriminate; congruence.
Qed.

Lemma fallback_stores_block_witness :
  exists (log : list effect) (enc : CompressWorker.encoded),
    CompressWorker.prepare noStructure storeBWT storeHuffman [x00; x01; x02; x03]
    = (log, Normal enc)
    /\ CompressWorker.isUncompressed enc = true
    /\ CompressWorker.compressedData enc = [x00; x01; x02; x03].
Proof.
  eexists. eexists. split; [vm_compute; reflexivity|].
  split; [reflexivity|].
  eapply (fallback_stores_block noStructure storeBWT storeHuffman
            [x00; x01; x02; x03]);
    [vm_compute; reflexivity | reflexivity].
Defined.

(** ** The two workers side by side *)

Lemma progressOnly_skipped (log rest : list effect) :
  progressOnly log = true ->
  completeOf (log ++ rest) = completeOf rest
  /\ warningsOf (log ++ rest) = warningsOf rest.
Proof.
  induction log as [|x log IH]; [now split|].
  cbn [progressOnly forallb]. intros H. apply andb_prop in H as [Hx Hlog].
  destruct x as [[]| |]; try discriminate. cbn [app completeOf warningsOf].
  now apply IH.
Qed.

(** The three tests of the decompress worker on the flags byte give back the
    three booleans the compress worker packed. *)
Lemma flags_tests (useBWT isSpecialCase isUncompressed : bool) :
  (js_and (CompressWorker.packFlags useBWT isSpecialCase isUncompressed) 1 =? 1)
  = useBWT
  /\ (js_and (CompressWorker.packFlags useBWT isSpecialCase isUncompressed) 2 =? 2)
     = isSpecialCase
  /\ (js_and (CompressWorker.packFlags useBWT isSpecialCase isUncompressed) 4 =? 4)
     = isUncompressed.
Proof. destruct useBWT, isSpecialCase, isUncompressed; repeat split; reflexivity. Qed.

Lemma headerFields_flagsOf (originalSize checksum : Z) (enc : CompressWorker.encoded) :
  DecompressWorker.usedBWT
    (headerFields originalSize (CompressWorker.flagsOf enc) checksum)
  = CompressWorker.useBWT enc
  /\ DecompressWorker.isSpecialCase
       (headerFields originalSize (CompressWorker.flagsOf enc) checksum)
     = CompressWorker.isSpecialCase enc
  /\ DecompressWorker.isUncompressed
       (headerFields originalSize (CompressWorker.flagsOf enc) checksum)
     = CompressWorker.isUncompressed enc.
Proof. unfold CompressWorker.flagsOf. cbn [headerFields DecompressWorker.usedBWT
  DecompressWorker.isSpecialCase DecompressWorker.isUncompressed]. apply flags_tests. Qed.

Lemma isAllSame_length (data : bytes) :
  CompressWorker.isAllSame data = true -> (100 <= List.length data)%nat.
Proof.
  unfold CompressWorker.isAllSame.
  destruct (List.length data <? 100)%nat eqn:H; [discriminate|].
  intros _. now apply Nat.ltb_ge in H.
Qed.

Section Stages.

Variable isStructuredText : bytes -> bool.
Variable bwtProcessor : BWTProcessor.
Variable huffmanEncoder : HuffmanEncoder.

(** What the first half of the compress handler hands over: the block itself
    with the stored-as-is flag, or else what the engines returned for it. *)
Lemma prepare_payload (data : bytes) (log : list effect)
      (enc : CompressWorker.encoded) :
  CompressWorker.prepare isStructuredText bwtProcessor huffmanEncoder data
  = (log, Normal enc) ->
  (CompressWorker.isUncompressed enc = true
   /\ CompressWorker.compressedData enc = data)
  \/ (CompressWorker.isUncompressed enc = false
      /\ (CompressWorker.useBWT enc = true ->
          exists bwtData,
            process bwtProcessor data = Normal bwtData
            /\ encode huffmanEncoder bwtData
               = Normal (CompressWorker.compressedData enc))
      /\ (CompressWorker.useBWT enc = false ->
          encode huffmanEncoder data
          = Normal (CompressWorker.compressedData enc))).
Proof.
  unfold CompressWorker.prepare, CompressWorker.encodeStage.
  split_paths; intros [= <- <-];
    cbn [CompressWorker.isUncompressed CompressWorker.compressedData
         CompressWorker.useBWT];
    try (left; split; reflexivity); right;
    (split; [reflexivity|]); split; intros Hpath;
    try discriminate; try rewrite Hpath in *; try discriminate; eauto.
Qed.

(** The decompress handler from the header on, for a payload whose checksum
    matches and whose decoded length is the size field. *)
Lemma afterHeader_returns (req : DecompressWorker.request)
      (h : DecompressWorker.header) (logd : list effect) (originalData : bytes) :
  crc32 (slice_from (DecompressWorker.data req) 12) = DecompressWorker.checksum h ->
  DecompressWorker.decodeStage bwtProcessor huffmanEncoder h
    (slice_from (DecompressWorker.data req) 12) = (logd, Normal originalData) ->
  DecompressWorker.expandSpecialCase h originalData = originalData ->
  Z.of_nat (List.length originalData) = DecompressWorker.originalSize h ->
  DecompressWorker.afterHeader bwtProcessor huffmanEncoder req h
  = (Post (Progress 0.2 "Verificando integridad")
     :: logd
     ++ [Post (Progress 1.0 "Descompresión completada");
         Post (DecompressComplete originalData
                 (List.length (DecompressWorker.data req))
                 (List.length originalData) (DecompressWorker.fileName req))],
     Normal tt).
Proof.
  intros Hcrc Hdecode Hexpand Hsize.
  unfold DecompressWorker.afterHeader, DecompressWorker.verifyChecksum,
    DecompressWorker.checkSize.
  rewrite Hcrc, Z.eqb_refl. cbn [negb]. run_worker. rewrite Hdecode. run_worker.
  rewrite Hexpand, Hsize, Z.eqb_refl. cbn [negb]. run_worker. reflexivity.
Qed.

End Stages.

Section StageRoundTrip.

Variable isStructuredText : bytes -> bool.
Variable bwtProcessor : BWTProcessor.
Variable huffmanEncoder : HuffmanEncoder.

Hypothesis decode_encode :
  forall x y, encode huffmanEncoder x = Normal y -> decode huffmanEncoder y = Normal x.
Hypothesis inverse_process :
  forall x y, process bwtProcessor x = Normal y -> inverse bwtProcessor y = Normal x.

(** The two halves of the format, each taken behind the header access: what
    the compress handler prepares for a block, read back by the decompress
    handler from the header on with the size, flags and checksum the compress
    handler computes, is the block itself, posted without a warning, whenever
    the engines invert each other. *)
Theorem stages_round_trip (data : bytes) (log : list effect)
        (enc : CompressWorker.encoded) (dreq : DecompressWorker.request) :
  Z.of_nat (List.length data) < 2 ^ 32 ->
  CompressWorker.prepare isStructuredText bwtProcessor huffmanEncoder data
  = (log, Normal enc) ->
  slice_from (DecompressWorker.data dreq) 12 = CompressWorker.compressedData enc ->
  snd (DecompressWorker.afterHeader bwtProcessor huffmanEncoder dreq
         (headerFields (toUint32 (Z.of_nat (List.length data)))
            (CompressWorker.flagsOf enc)
            (crc32 (CompressWorker.compressedData enc)))) = Normal tt
  /\ completeOf
       (fst (DecompressWorker.afterHeader bwtProcessor huffmanEncoder dreq
               (headerFields (toUint32 (Z.of_nat (List.length data)))
                  (CompressWorker.flagsOf enc)
                  (crc32 (CompressWorker.compressedData enc)))))
     = Some (DecompressComplete data (List.length (DecompressWorker.data dreq))
               (List.length data) (DecompressWorker.fileName dreq))
  /\ warningsOf
       (fst (DecompressWorker.afterHeader bwtProcessor huffmanEncoder dreq
               (headerFields (toUint32 (Z.of_nat (List.length data)))
                  (CompressWorker.flagsOf enc)
                  (crc32 (CompressWorker.compressedData enc))))) = [].
Proof.
  intros Hlen Hrun Hpayload.
  rewrite toUint32_small by lia.
  set (h := headerFields (Z.of_nat (List.length data)) (CompressWorker.flagsOf enc)
              (crc32 (CompressWorker.compressedData enc))).
  destruct (headerFields_flagsOf (Z.of_nat (List.length data))
              (crc32 (CompressWorker.compressedData enc)) enc)
    as (Hbwt & Hspecial & Hraw).
  fold h in Hbwt, Hspecial, Hraw.
  pose proof (prepare_flags _ _ _ _ _ _ Hrun) as [_ Hsp].
  assert (Hexpand : DecompressWorker.expandSpecialCase h data = data).
  { unfold DecompressWorker.expandSpecialCase. rewrite Hspecial.
    destruct (CompressWorker.isSpecialCase enc) eqn:Hs; [|reflexivity].
    symmetry in Hsp. apply andb_prop in Hsp as [_ Hsame].
    apply isAllSame_length in Hsame.
    replace (List.length data =? 1)%nat with false
      by (symmetry; apply Nat.eqb_neq; lia).
    reflexivity. }
  assert (Hdecode : exists logd,
             DecompressWorker.decodeStage bwtProcessor huffmanEncoder h
               (slice_from (DecompressWorker.data dreq) 12) = (logd, Normal data)
             /\ progressOnly logd = true).
  { unfold DecompressWorker.decodeStage. rewrite Hraw, Hbwt, Hpayload.
    destruct (prepare_payload _ _ _ _ _ _ Hrun) as [[-> ->] | (-> & Hyes & Hno)].
    - eexists. split; reflexivity.
    - destruct (CompressWorker.useBWT enc).
      + destruct (Hyes eq_refl) as (bwtData & Hp & He).
        apply decode_encode in He. apply inverse_process in Hp.
        run_worker. rewrite He. run_worker. rewrite Hp.
        eexists. split; reflexivity.
      + pose proof (Hno eq_refl) as Henc.
        apply decode_encode in Henc. run_worker. rewrite Henc.
        eexists. split; reflexivity. }
  destruct Hdecode as (logd & Hdecode & Hquiet).
  rewrite (afterHeader_returns bwtProcessor huffmanEncoder dreq h logd data);
    try assumption; try reflexivity.
  - cbn [fst snd]. split; [reflexivity|].
    cbn [completeOf warningsOf].
    destruct (progressOnly_skipped logd
                [Post (Progress 1.0 "Descompresión completada");
                 Post (DecompressComplete data
                         (List.length (DecompressWorker.data dreq))
                         (List.length data) (DecompressWorker.fileName dreq))]
                Hquiet) as [-> ->].
    split; reflexivity.
  - now rewrite Hpayload.
Qed.
End StageRoundTrip.

Lemma stages_round_trip_witness :
  completeOf
    (fst (DecompressWorker.afterHeader storeBWT storeHuffman
            {| DecompressWorker.data := Uint8Array 12 ++ [x00; x01; x02; x03];
               DecompressWorker.fileName := "block.hs6d";
               DecompressWorker.fileSize := 16 |}
            (headerFields (toUint32 4) 4 (crc32 [x00; x01; x02; x03]))))
  = Some (DecompressComplete [x00; x01; x02; x03] 16 4 "block.hs6d").
Proof.
  refine (proj1 (proj2 (stages_round_trip noStructure storeBWT storeHuffman
            _ _ [x00; x01; x02; x03] _
            {| CompressWorker.compressedData := [x00; x01; x02; x03];
               CompressWorker.useBWT := false;
               CompressWorker.isSpecialCase := false;
               CompressWorker.isUncompressed := true;
               CompressWorker.compressionRatio := 1 |}
            {| DecompressWorker.data := Uint8Array 12 ++ [x00; x01; x02; x03];
               DecompressWorker.fileName := "block.hs6d";
               DecompressWorker.fileSize := 16 |} _ _ _))).
  - intros x y [= <-]. reflexivity.
  - intros x y [= <-]. reflexivity.
  - reflexivity.
  - vm_compute. reflexivity.
  - reflexivity.
Defined.

Section AfterHeaderBlock.

Variable bwtProcessor : BWTProcessor.
Variable huffmanEncoder : HuffmanEncoder.

(** A block the decompress handler posts is never longer than the size
    field, and the sizes posted with it are its own length and the length of
    the container. *)
Theorem posted_block_within_size (req : DecompressWorker.request)
        (h : DecompressWorker.header) (decompressed : bytes)
        (compressedSize originalSize : nat) (name : string) :
  completeOf (fst (DecompressWorker.afterHeader bwtProcessor huffmanEncoder req h))
  = Some (DecompressComplete decompressed compressedSize originalSize name) ->
  Z.of_nat (List.length decompressed) <= Z.max 0 (DecompressWorker.originalSize h)
  /\ originalSize = List.length decompressed
  /\ compressedSize = List.length (DecompressWorker.data req)
  /\ name = DecompressWorker.fileName req
  /\ crc32 (slice_from (DecompressWorker.data req) 12) = DecompressWorker.checksum h.
Proof.
  unfold DecompressWorker.afterHeader, DecompressWorker.verifyChecksum,
    DecompressWorker.decodeStage, DecompressWorker.checkSize.
  set (payload := slice_from (DecompressWorker.data req) 12).
  split_paths; cbn [completeOf]; try discriminate; intros [= <- <- <- <-];
    repeat match goal with
      | H : negb _ = _ |- _ => rewrite ?negb_true_iff, ?negb_false_iff in H
      | H : (_ =? _) = true |- _ => apply Z.eqb_eq in H
      | H : (_ =? _) = false |- _ => apply Z.eqb_neq in H
      | H : (_ <? _) = true |- _ => apply Z.ltb_lt in H
      | H : (_ <? _) = false |- _ => apply Z.ltb_ge in H
      end;
    rewrite ?slice_prefix, ?length_firstn;
    repeat split; try reflexivity; try assumption; lia.
Qed.

End AfterHeaderBlock.

Lemma posted_block_within_size_witness :
  Z.of_nat (List.length [x00; x01]) <= Z.max 0 2
  /\ 2%nat = List.length [x00; x01]
  /\ 16%nat = List.length (Uint8Array 12 ++ [x00; x01; x02; x03])
  /\ "block.hs6d"%string = "block.hs6d"%string
  /\ crc32 (slice_from (Uint8Array 12 ++ [x00; x01; x02; x03]) 12)
     = crc32 [x00; x01; x02; x03].
Proof.
  apply (posted_block_within_size storeBWT storeHuffman
           {| DecompressWorker.data := Uint8Array 12 ++ [x00; x01; x02; x03];
              DecompressWorker.fileName := "block.hs6d";
              DecompressWorker.fileSize := 16 |}
           (headerFields 2 4 (crc32 [x00; x01; x02; x03]))).
  vm_compute. reflexivity.
Defined.

Section SpecialCase.

Variable bwtProcessor : BWTProcessor.
Variable huffmanEncoder : HuffmanEncoder.

(** The special case on the reading side: when the flag is set, the payload
    decodes to a single byte and the size field is larger than 1, the block
    posted is that byte repeated as many times as the size field says, and
    there is no warning. *)
Theorem special_case_expands (req : DecompressWorker.request)
        (h : DecompressWorker.header) (b : byte) (n : nat) :
  crc32 (slice_from (DecompressWorker.data req) 12) = DecompressWorker.checksum h ->
  DecompressWorker.isUncompressed h = false ->
  DecompressWorker.usedBWT h = false ->
  DecompressWorker.isSpecialCase h = true ->
  decode huffmanEncoder (slice_from (DecompressWorker.data req) 12) = Normal [b] ->
  DecompressWorker.originalSize h = Z.of_nat n ->
  (1 < n)%nat ->
  DecompressWorker.afterHeader bwtProcessor huffmanEncoder req h
  = ([Post (Progress 0.2 "Verificando integridad");
      Post (Progress 0.4 "Descomprimiendo Huffman");
      Post (Progress 1.0 "Descompresión completada");
      Post (DecompressComplete (repeat b n)
              (List.length (DecompressWorker.data req)) n
              (DecompressWorker.fileName req))],
     Normal tt).
Proof.
  intros Hcrc Hraw Hbwt Hspecial Hdecode Hsize Hn.
  unfold DecompressWorker.afterHeader, DecompressWorker.verifyChecksum,
    DecompressWorker.decodeStage, DecompressWorker.checkSize,
    DecompressWorker.expandSpecialCase.
  rewrite Hcrc, Z.eqb_refl, Hraw, Hbwt, Hspecial, Hsize.
  cbn [negb]. run_worker. rewrite Hdecode. run_worker.
  replace (1 <? Z.of_nat n) with true by (symmetry; apply Z.ltb_lt; lia).
  cbn [List.length Nat.eqb andb nth fill]. unfold fill.
  rewrite Nat2Z.id, repeat_length, Z.eqb_refl. cbn [negb]. run_worker.
  now rewrite repeat_length.
Qed.

End SpecialCase.

Lemma special_case_expands_witness :
  DecompressWorker.afterHeader storeBWT storeHuffman
    {| DecompressWorker.data := Uint8Array 12 ++ [x41];
       DecompressWorker.fileName := "a.hs6d";
       DecompressWorker.fileSize := 13 |}
    (headerFields 5 2 (crc32 [x41]))
  = ([Post (Progress 0.2 "Verificando integridad");
      Post (Progress 0.4 "Descomprimiendo Huffman");
      Post (Progress 1.0 "Descompresión completada");
      Post (DecompressComplete (repeat x41 5) 13 5 "a.hs6d")],
     Normal tt).
Proof.
  apply (special_case_expands storeBWT storeHuffman
           {| DecompressWorker.data := Uint8Array 12 ++ [x41];
              DecompressWorker.fileName := "a.hs6d";
              DecompressWorker.fileSize := 13 |}
           (headerFields 5 2 (crc32 [x41])) x41 5);
    try reflexivity; lia.
Defined.


Section CompressErrors.

Variable isStructuredText : bytes -> bool.
Variable bwtProcessor : BWTProcessor.
Variable huffmanEncoder : HuffmanEncoder.

(** What the page is told when the encoder throws: the fixed text of the
    path on the transform path and on the plain binary path, but the
    encoder's own message on the repeated-bytes path, whose call is outside
    the inner [try]. *)
Theorem encoder_failure_reported (req : CompressWorker.request) (e : exn) :
  CompressWorker.fileSize req <= CompressWorker.MAX_MOBILE_SIZE ->
  (forall x, encode huffmanEncoder x = Throw e) ->
  failureOf (CompressWorker.onmessage isStructuredText bwtProcessor huffmanEncoder req)
  = Some ("Error en compresión: "
          ++ if CompressWorker.shouldUseBWT isStructuredText (CompressWorker.data req)
             then "Fallo en compresión para texto estructurado"
             else if CompressWorker.isAllSame (CompressWorker.data req)
                  then exn_message e
                  else "Fallo en compresión binaria")%string.
Proof.
  intros Hsize Hthrows.
  unfold CompressWorker.onmessage.
  replace (CompressWorker.MAX_MOBILE_SIZE <? CompressWorker.fileSize req) with false
    by (symmetry; apply Z.ltb_ge; exact Hsize).
  unfold CompressWorker.body, CompressWorker.prepare, CompressWorker.encodeStage.
  destruct (CompressWorker.shouldUseBWT isStructuredText (CompressWorker.data req)).
  - run_worker. destruct (process bwtProcessor (CompressWorker.data req));
      run_worker; rewrite ?Hthrows; run_worker; reflexivity.
  - destruct (CompressWorker.isAllSame (CompressWorker.data req));
      run_worker; rewrite Hthrows; run_worker; reflexivity.
Qed.

End CompressErrors.

Lemma encoder_failure_reported_witness :
  failureOf (CompressWorker.onmessage noStructure storeBWT
               {| encode := fun _ => Throw (Error "tabla vacía");
                  decode := Normal |}
               {| CompressWorker.data := repeat x00 100;
                  CompressWorker.fileName := "ceros.bin";
                  CompressWorker.fileSize := 100 |})
  = Some "Error en compresión: tabla vacía"%string.
Proof.
  apply (encoder_failure_reported noStructure storeBWT
           {| encode := fun _ => Throw (Error "tabla vacía"); decode := Normal |}
           {| CompressWorker.data := repeat x00 100;
              CompressWorker.fileName := "ceros.bin";
              CompressWorker.fileSize := 100 |} (Error "tabla vacía")).
  - vm_compute. discriminate.
  - reflexivity.
Defined.

Section Answers.

Variable isStructuredText : bytes -> bool.
Variable bwtProcessor : BWTProcessor.
Variable huffmanEncoder : HuffmanEncoder.

Lemma prepare_answers_nothing (data : bytes) :
  existsb isAnswer
    (fst (CompressWorker.prepare isStructuredText bwtProcessor huffmanEncoder data))
  = false.
Proof.
  unfold CompressWorker.prepare, CompressWorker.encodeStage.
  split_paths; reflexivity.
Qed.

(** Each worker answers every request exactly once, with its last message,
    and as the code stands the answer is an error: the rejection of a file
    that is too large or the message of the [catch] block. *)
Theorem every_request_answered_once
        (creq : CompressWorker.request) (dreq : DecompressWorker.request) :
  (exists (before : list effect) (answer : effect),
      CompressWorker.onmessage isStructuredText bwtProcessor huffmanEncoder creq
      = before ++ [answer]
      /\ existsb isAnswer before = false
      /\ isAnswer answer = true /\ isComplete answer = false)
  /\ (exists (before : list effect) (answer : effect),
         DecompressWorker.onmessage bwtProcessor huffmanEncoder dreq
         = before ++ [answer]
         /\ existsb isAnswer before = false
         /\ isAnswer answer = true /\ isComplete answer = false).
Proof.
  split.
  - destruct (onmessage_log isStructuredText bwtProcessor huffmanEncoder creq)
      as [-> | [e ->]].
    + exists [], (Post (TooLarge (CompressWorker.fileSize creq))).
      repeat split.
    + eexists. eexists. split; [reflexivity|].
      split; [apply prepare_answers_nothing | split; reflexivity].
  - destruct (decompress_log bwtProcessor huffmanEncoder dreq) as [e [_ ->]].
    exists [Post (Progress 0.05 "Validando archivo")].
    eexists. split; [reflexivity|]. repeat split.
Qed.

End Answers.

(** ** The header fields *)

Lemma fromBigEndian_acc (bs : bytes) : forall acc : Z,
  fold_left (fun acc b => acc * 256 + byteValue b) bs acc
  = acc * 256 ^ Z.of_nat (List.length bs) + fromBigEndian bs.
Proof.
  unfold fromBigEndian.
  induction bs as [|b bs IH]; intros acc.
  - cbn [fold_left List.length]. change (256 ^ Z.of_nat 0) with 1. lia.
  - cbn [fold_left]. rewrite IH, (IH (0 * 256 + byteValue b)).
    cbn [List.length]. rewrite Nat2Z.inj_succ, Z.pow_succ_r by lia. ring.
Qed.

(** The bytes written for a number read back give the number modulo
    [256 ^ size]. *)
Lemma fromBigEndian_bigEndian (n : nat) (value : Z) :
  fromBigEndian (bigEndian n value) = value mod 256 ^ Z.of_nat n.
Proof.
  induction n as [|n IH].
  - cbn. now rewrite Z.mod_1_r.
  - cbn [bigEndian]. unfold fromBigEndian. cbn [fold_left].
    rewrite fromBigEndian_acc, bigEndian_length, IH, byteValue_toUint8.
    rewrite Z.shiftr_div_pow2 by lia.
    rewrite Nat2Z.inj_succ, Z.pow_succ_r by lia.
    replace (2 ^ (8 * Z.of_nat n)) with (256 ^ Z.of_nat n)
      by (change 256 with (2 ^ 8); rewrite <- Z.pow_mul_r by lia; reflexivity).
    assert (Hpos : 0 < 256 ^ Z.of_nat n) by (apply Z.pow_pos_nonneg; lia).
    rewrite (Z.mul_comm 256), Z.rem_mul_r by lia. lia.
Qed.

Lemma slice_of_app_left (l1 l2 : bytes) (i j : nat) :
  (j <= List.length l1)%nat -> slice (l1 ++ l2) i j = slice l1 i j.
Proof.
  intros Hj. unfold slice. rewrite skipn_app, firstn_app, length_skipn.
  replace (j - i - (List.length l1 - i))%nat with 0%nat by lia.
  cbn [firstn]. apply app_nil_r.
Qed.

Lemma slice_of_firstn (a : bytes) (n i j : nat) :
  (j <= n)%nat -> slice (firstn n a) i j = slice a i j.
Proof.
  intros Hj. unfold slice.
  destruct (Nat.le_gt_cases i n) as [Hi|Hi].
  - replace n with (i + (n - i))%nat at 1 by lia.
    rewrite <- firstn_skipn_comm, firstn_firstn. f_equal. lia.
  - now replace (j - i)%nat with 0%nat by lia.
Qed.

(** A field read where it was written. *)
Lemma getBytes_setBytes (size : nat) (view : bytes) (byteOffset : nat) (value : Z)
      (view' : bytes) :
  setBytes size view byteOffset value = Normal view' ->
  getBytes size view' byteOffset = Normal (value mod 256 ^ Z.of_nat size).
Proof.
  intros Hset. pose proof (setBytes_length _ _ _ _ _ Hset) as Hlen.
  revert Hset. unfold setBytes, getBytes. rewrite Hlen.
  destruct (byteOffset + size <=? List.length view)%nat eqn:Hfit; [|discriminate].
  apply Nat.leb_le in Hfit. intros [= <-]. f_equal.
  rewrite <- fromBigEndian_bigEndian. f_equal.
  unfold slice. rewrite skipn_app, length_firstn.
  replace (Nat.min byteOffset (List.length view)) with byteOffset by lia.
  rewrite (skipn_all2 (firstn byteOffset view)) by (rewrite length_firstn; lia).
  rewrite Nat.sub_diag. cbn [skipn app].
  replace (byteOffset + size - byteOffset)%nat with size by lia.
  rewrite firstn_app, bigEndian_length, Nat.sub_diag. cbn [firstn].
  rewrite app_nil_r. apply firstn_all2. now rewrite bigEndian_length.
Qed.

(** A field in front of a later write is not disturbed by it. *)
Lemma getBytes_before_setBytes (size : nat) (view : bytes) (byteOffset : nat)
      (value : Z) (view' : bytes) (size' byteOffset' : nat) :
  setBytes size view byteOffset value = Normal view' ->
  (byteOffset' + size' <= byteOffset)%nat ->
  getBytes size' view' byteOffset' = getBytes size' view byteOffset'.
Proof.
  intros Hset Hbefore. pose proof (setBytes_length _ _ _ _ _ Hset) as Hlen.
  revert Hset. unfold setBytes, getBytes. rewrite Hlen.
  destruct (byteOffset + size <=? List.length view)%nat eqn:Hfit; [|discriminate].
  apply Nat.leb_le in Hfit. intros [= <-].
  destruct (byteOffset' + size' <=? List.length view)%nat; [|reflexivity].
  f_equal. f_equal.
  rewrite slice_of_app_left by (rewrite length_firstn; lia).
  apply slice_of_firstn. lia.
Qed.

Lemma flagsOf_range (enc : CompressWorker.encoded) :
  0 <= CompressWorker.flagsOf enc <= 7.
Proof.
  unfold CompressWorker.flagsOf.
  destruct (CompressWorker.useBWT enc), (CompressWorker.isSpecialCase enc),
    (CompressWorker.isUncompressed enc); cbn; lia.
Qed.

(** The three fields the compress worker writes before the checksum are the
    ones the decompress worker reads at the same offsets: the magic number
    passes its test, the size is the length of the block, and the three tests
    on the flags byte give back the three decisions. *)
Theorem header_fields_round_trip (data : bytes) (enc : CompressWorker.encoded) :
  Z.of_nat (List.length data) < 2 ^ 32 ->
  exists h1 h2 h3 : bytes,
    setUint32 (Uint8Array 12) 0 0x48533644 = Normal h1
    /\ setUint32 h1 4 (Z.of_nat (List.length data)) = Normal h2
    /\ setUint8 h2 8 (CompressWorker.flagsOf enc) = Normal h3
    /\ getUint32 h3 0 = Normal 0x48533644
    /\ getUint32 h3 4 = Normal (Z.of_nat (List.length data))
    /\ getUint8 h3 8 = Normal (CompressWorker.flagsOf enc)
    /\ DecompressWorker.usedBWT
         (headerFields (Z.of_nat (List.length data)) (CompressWorker.flagsOf enc) 0)
       = CompressWorker.useBWT enc
    /\ DecompressWorker.isSpecialCase
         (headerFields (Z.of_nat (List.length data)) (CompressWorker.flagsOf enc) 0)
       = CompressWorker.isSpecialCase enc
    /\ DecompressWorker.isUncompressed
         (headerFields (Z.of_nat (List.length data)) (CompressWorker.flagsOf enc) 0)
       = CompressWorker.isUncompressed enc.
Proof.
  intros Hlen. unfold setUint32, setUint8, getUint32, getUint8.
  destruct (setBytes_fits 4 (Uint8Array 12) 0 0x48533644) as [h1 H1];
    [simpl; lia|].
  pose proof (setBytes_length _ _ _ _ _ H1) as L1.
  destruct (setBytes_fits 4 h1 4 (Z.of_nat (List.length data))) as [h2 H2];
    [rewrite L1; simpl; lia|].
  pose proof (setBytes_length _ _ _ _ _ H2) as L2.
  destruct (setBytes_fits 1 h2 8 (CompressWorker.flagsOf enc)) as [h3 H3];
    [rewrite L2, L1; simpl; lia|].
  exists h1, h2, h3. repeat (split; [assumption|]).
  pose proof (flagsOf_range enc) as Hflags.
  split; [|split; [|split]].
  - rewrite (getBytes_before_setBytes _ _ _ _ _ 4 0 H3) by lia.
    rewrite (getBytes_before_setBytes _ _ _ _ _ 4 0 H2) by lia.
    rewrite (getBytes_setBytes _ _ _ _ _ H1). reflexivity.
  - rewrite (getBytes_before_setBytes _ _ _ _ _ 4 4 H3) by lia.
    rewrite (getBytes_setBytes _ _ _ _ _ H2). f_equal.
    apply Z.mod_small. change (256 ^ Z.of_nat 4) with (2 ^ 32). lia.
  - rewrite (getBytes_setBytes _ _ _ _ _ H3). f_equal.
    apply Z.mod_small. change (256 ^ Z.of_nat 1) with 256. lia.
  - apply headerFields_flagsOf.
Qed.

Lemma header_fields_round_trip_witness :
  exists h1 h2 h3 : bytes,
    setUint32 (Uint8Array 12) 0 0x48533644 = Normal h1
    /\ setUint32 h1 4 (Z.of_nat (List.length [x41; x42; x43])) = Normal h2
    /\ setUint8 h2 8 5 = Normal h3
    /\ getUint32 h3 0 = Normal 0x48533644
    /\ getUint32 h3 4 = Normal 3
    /\ getUint8 h3 8 = Normal 5
    /\ DecompressWorker.usedBWT (headerFields 3 5 0) = true
    /\ DecompressWorker.isSpecialCase (headerFields 3 5 0) = false
    /\ DecompressWorker.isUncompressed (headerFields 3 5 0) = true.
Proof.
  apply (header_fields_round_trip [x41; x42; x43]
           {| CompressWorker.compressedData := [x41; x42; x43];
              CompressWorker.useBWT := true;
              CompressWorker.isSpecialCase := false;
              CompressWorker.isUncompressed := true;
              CompressWorker.compressionRatio := 1 |}).
  simpl. lia.
Defined.

(** ** The flags and the classifier *)

(** The flags byte is consistent: bit 0 is the decision of the classifier,
    the degenerate bit is never set together with it, and when it is set the
    block has at least 100 bytes, all equal to the first. *)
Theorem flags_consistent
        (isStructuredText : bytes -> bool) (bwtProcessor : BWTProcessor)
        (huffmanEncoder : HuffmanEncoder) (data : bytes) (log : list effect)
        (enc : CompressWorker.encoded) :
  CompressWorker.prepare isStructuredText bwtProcessor huffmanEncoder data
  = (log, Normal enc) ->
  0 <= CompressWorker.flagsOf enc < 8
  /\ Z.testbit (CompressWorker.flagsOf enc) 0
     = CompressWorker.shouldUseBWT isStructuredText data
  /\ Z.testbit (CompressWorker.flagsOf enc) 0
     && Z.testbit (CompressWorker.flagsOf enc) 1 = false
  /\ (Z.testbit (CompressWorker.flagsOf enc) 1 = true ->
      (100 <= List.length data)%nat /\ Forall (eq (nth 0 data x00)) data).
Proof.
  intros Hrun. pose proof (flagsOf_range enc) as Hrange.
  split; [lia|]. clear Hrange.
  apply prepare_flags in Hrun as [Hbwt Hspecial].
  unfold CompressWorker.flagsOf.
  destruct (packFlags_bits (CompressWorker.useBWT enc)
              (CompressWorker.isSpecialCase enc)
              (CompressWorker.isUncompressed enc)) as (-> & -> & _).
  rewrite Hspecial, Hbwt.
  split; [reflexivity|]. split.
  - destruct (CompressWorker.shouldUseBWT isStructuredText data); reflexivity.
  - intros H. apply andb_prop in H as [_ Hsame].
    pose proof (isAllSame_length data Hsame) as Hlen.
    split; [exact Hlen|]. now apply isAllSame_long.
Qed.

Lemma flags_consistent_witness :
  0 <= 6 < 8
  /\ Z.testbit 6 0 = CompressWorker.shouldUseBWT noStructure (repeat x00 100)
  /\ Z.testbit 6 0 && Z.testbit 6 1 = false
  /\ (Z.testbit 6 1 = true ->
      (100 <= List.length (repeat x00 100))%nat
      /\ Forall (eq (nth 0 (repeat x00 100) x00)) (repeat x00 100)).
Proof.
  refine (flags_consistent noStructure storeBWT storeHuffman (repeat x00 100) _
            {| CompressWorker.compressedData := repeat x00 100;
               CompressWorker.useBWT := false;
               CompressWorker.isSpecialCase := true;
               CompressWorker.isUncompressed := true;
               CompressWorker.compressionRatio := 1 |} _).
  vm_compute. reflexivity.
Defined.

Lemma firstn_min_length {A : Type} (n : nat) (l : list A) :
  firstn (Nat.min (List.length l) n) l = firstn n l.
Proof.
  destruct (Nat.le_gt_cases n (List.length l)) as [H|H].
  - now rewrite Nat.min_r.
  - rewrite Nat.min_l, firstn_all, firstn_all2 by lia. reflexivity.
Qed.

(** The classifier looks at nothing behind the first 10000 bytes: two blocks
    with the same first 10000 bytes on which the detector agrees get the same
    decision. *)
Theorem shouldUseBWT_sample_only (isStructuredText : bytes -> bool)
        (data data' : bytes) :
  firstn 10000 data = firstn 10000 data' ->
  isStructuredText data = isStructuredText data' ->
  CompressWorker.shouldUseBWT isStructuredText data
  = CompressWorker.shouldUseBWT isStructuredText data'.
Proof.
  intros Hsame Hdetect. unfold CompressWorker.shouldUseBWT.
  rewrite Hdetect, !slice_prefix, !firstn_min_length, Hsame.
  replace (Nat.min (List.length data) 10000)
    with (Nat.min (List.length data') 10000); [reflexivity|].
  rewrite (Nat.min_comm (List.length data')), (Nat.min_comm (List.length data)).
  rewrite <- !length_firstn. now rewrite Hsame.
Qed.

Lemma shouldUseBWT_sample_only_witness :
  CompressWorker.shouldUseBWT noStructure (repeat x41 10000 ++ [x00])
  = CompressWorker.shouldUseBWT noStructure (repeat x41 10000 ++ [x41; x42]).
Proof.
  apply shouldUseBWT_sample_only; [|reflexivity].
  rewrite !firstn_app, !repeat_length, Nat.sub_diag. reflexivity.
Defined.

Lemma filter_repeat (f : byte -> bool) (b : byte) (n : nat) :
  List.length (filter f (repeat b n)) = if f b then n else 0%nat.
Proof.
  induction n as [|n IH]; cbn [repeat filter]; [now destruct (f b)|].
  destruct (f b) eqn:Hf; cbn [List.length]; rewrite ?IH; reflexivity.
Qed.

Lemma firstn_repeat_min (b : byte) (n m : nat) :
  firstn m (repeat b n) = repeat b (Nat.min m n).
Proof.
  revert m. induction n as [|n IH]; intros [|m]; cbn; try reflexivity.
  now rewrite IH.
Qed.

(** A block of one repeated byte takes the transform path exactly when the
    detector recognises it or the byte is a text byte. *)
Lemma shouldUseBWT_repeat (isStructuredText : bytes -> bool) (b : byte) (n : nat) :
  (0 < n)%nat ->
  CompressWorker.shouldUseBWT isStructuredText (repeat b n)
  = isStructuredText (repeat b n) || CompressWorker.isTextChar b.
Proof.
  intros Hn. unfold CompressWorker.shouldUseBWT.
  destruct (isStructuredText (repeat b n)); [reflexivity|]. cbn [orb].
  rewrite slice_prefix, countTextChars_filter, repeat_length, firstn_repeat_min,
    filter_repeat.
  rewrite (Nat.min_l (Nat.min n 10000) n) by apply Nat.le_min_l.
  set (s := Nat.min n 10000).
  assert (Hs : (0 < s <= 10000)%nat).
  { unfold s. split; [|apply Nat.le_min_r].
    apply Nat.min_glb_lt; [exact Hn|]. apply Nat.ltb_lt. reflexivity. }
  rewrite textRatio_exact; [|destruct (CompressWorker.isTextChar b); lia | lia].
  destruct (CompressWorker.isTextChar b).
  - apply Nat.ltb_lt. lia.
  - apply Nat.ltb_ge. lia.
Qed.

(** Which runs of one byte get the degenerate flag: those of at least 100
    bytes whose byte is not a text byte, unless the detector recognises the
    block. *)
Theorem repeated_byte_flag
        (isStructuredText : bytes -> bool) (bwtProcessor : BWTProcessor)
        (huffmanEncoder : HuffmanEncoder) (b : byte) (n : nat) (log : list effect)
        (enc : CompressWorker.encoded) :
  (0 < n)%nat ->
  CompressWorker.prepare isStructuredText bwtProcessor huffmanEncoder (repeat b n)
  = (log, Normal enc) ->
  Z.testbit (CompressWorker.flagsOf enc) 1
  = (100 <=? n)%nat && negb (isStructuredText (repeat b n))
    && negb (CompressWorker.isTextChar b)
  /\ Z.testbit (CompressWorker.flagsOf enc) 0
     = isStructuredText (repeat b n) || CompressWorker.isTextChar b.
Proof.
  intros Hn Hrun. apply prepare_flags in Hrun as [Hbwt Hspecial].
  unfold CompressWorker.flagsOf.
  destruct (packFlags_bits (CompressWorker.useBWT enc)
              (CompressWorker.isSpecialCase enc)
              (CompressWorker.isUncompressed enc)) as (-> & -> & _).
  rewrite Hspecial, Hbwt, (shouldUseBWT_repeat _ _ _ Hn).
  split; [|reflexivity].
  rewrite negb_orb.
  destruct (100 <=? n)%nat eqn:Hlong.
  - apply Nat.leb_le in Hlong.
    assert (Hsame : CompressWorker.isAllSame (repeat b n) = true).
    { apply isAllSame_long; [now rewrite repeat_length|].
      apply Forall_forall. intros x Hx. apply repeat_spec in Hx. subst x.
      destruct n; [lia | reflexivity]. }
    rewrite Hsame. now rewrite andb_true_r.
  - apply Nat.leb_gt in Hlong.
    rewrite isAllSame_short by (now rewrite repeat_length).
    now rewrite andb_false_r.
Qed.

Lemma repeated_byte_flag_witness :
  Z.testbit 5 1
  = (100 <=? 10000)%nat && negb (noStructure (repeat x41 10000))
    && negb (CompressWorker.isTextChar x41)
  /\ Z.testbit 5 0 = noStructure (repeat x41 10000) || CompressWorker.isTextChar x41.
Proof.
  refine (repeated_byte_flag noStructure storeBWT storeHuffman x41 10000 _
            {| CompressWorker.compressedData := repeat x41 10000;
               CompressWorker.useBWT := true;
               CompressWorker.isSpecialCase := false;
               CompressWorker.isUncompressed := true;
               CompressWorker.compressionRatio := 1 |} _ _).
  - apply Nat.ltb_lt. reflexivity.
  - vm_compute. reflexivity.
Defined.

(** ** The checksum as one pass *)

(** Neither the early return for the empty array nor the chunks of 32768
    bytes show in the result: [crc32] is the table-driven pass over the whole
    array, started from [0 ^ -1], complemented and made unsigned; and the
    result is always an unsigned 32-bit number. *)
Theorem crc32_single_pass (data : bytes) :
  crc32 data
  = js_ushr (js_xor (fold_left crcStep data (js_xor 0 (-1))) (-1)) 0
  /\ 0 <= crc32 data < 2 ^ 32.
Proof.
  assert (Hpass : crc32 data
                  = js_ushr (js_xor (fold_left crcStep data (js_xor 0 (-1))) (-1)) 0).
  { unfold crc32. destruct (List.length data =? 0)%nat eqn:Hlen.
    - apply Nat.eqb_eq, length_zero_iff_nil in Hlen. subst data. reflexivity.
    - rewrite crcChunks_slice. cbn [Nat.mul Nat.add].
      rewrite slice_whole; [reflexivity|].
      pose proof chunkSize_pos as Hpos.
      pose proof (Nat.div_mod_eq (List.length data + chunkSize - 1) chunkSize) as Hd.
      pose proof (Nat.mod_upper_bound (List.length data + chunkSize - 1) chunkSize)
        as Hm.
      rewrite Nat.mul_comm. lia. }
  split; [exact Hpass|].
  rewrite Hpass. unfold js_ushr. change (0 mod 32) with 0.
  rewrite Z.shiftr_0_r. apply toUint32_range.
Qed.

(** ** The answers of the decompress worker *)

(** All the decompress worker does, as the code stands: one progress report
    and one error, which is the size error below 12 bytes, else the format
    error unless the first four bytes are the magic number, else the
    [RangeError] of the read of the checksum. *)
Theorem decompress_answers
        (bwtProcessor : BWTProcessor) (huffmanEncoder : HuffmanEncoder)
        (req : DecompressWorker.request) :
  DecompressWorker.onmessage bwtProcessor huffmanEncoder req
  = [Post (Progress 0.05 "Validando archivo");
     Post (Failure
             ("Error en descompresión: "
              ++ if (List.length (DecompressWorker.data req) <? 12)%nat
                 then "Archivo inválido: tamaño mínimo 12 bytes"
                 else if fromBigEndian (firstn 4 (DecompressWorker.data req))
                         =? 0x48533644
                      then "Offset is outside the bounds of the DataView"
                      else "Formato de archivo inválido")
             (DecompressWorker.fileName req))].
Proof.
  destruct (decompress_log bwtProcessor huffmanEncoder req) as [e [He ->]].
  rewrite readHeader_throws in He. injection He as <-.
  rewrite (slice_prefix _ 12), (slice_of_firstn _ 12 0 4), slice_prefix by lia.
  destruct (List.length (DecompressWorker.data req) <? 12)%nat; [reflexivity|].
  destruct (fromBigEndian (firstn 4 (DecompressWorker.data req)) =? 0x48533644);
    reflexivity.
Qed.

(** ** The table of the checksum *)

Lemma js_and_1_unsigned (c : Z) :
  (js_and c 1 =? 0) = negb (Z.testbit (toUint32 c) 0).
Proof.
  assert (Hbit : Z.testbit (toUint32 c) 0 = Z.testbit (toInt32 c) 0).
  { rewrite <- (toUint32_toInt32 c). unfold toUint32 at 1.
    now apply Z.mod_pow2_bits_low. }
  assert (H : js_and c 1 = Z.b2z (Z.testbit (toInt32 c) 0)).
  { unfold js_and. change (toInt32 1) with (Z.ones 1).
    rewrite Z.land_ones by lia. change (2 ^ 1) with 2.
    rewrite <- Z.bit0_mod.
    apply toInt32_small. destruct (Z.testbit (toInt32 c) 0); cbn; lia. }
  rewrite H, Hbit. now destruct (Z.testbit (toInt32 c) 0).
Qed.

Lemma shiftr_range (u k : Z) : 0 <= u < 2 ^ 32 -> 0 <= k -> 0 <= Z.shiftr u k < 2 ^ 32.
Proof.
  intros Hu Hk. rewrite Z.shiftr_div_pow2 by lia.
  assert (0 < 2 ^ k) by (apply Z.pow_pos_nonneg; lia).
  split; [apply Z.div_pos; lia|].
  apply Z.div_lt_upper_bound; nia.
Qed.

(** The loop of the table on signed numbers is [bitSteps] on their unsigned
    reading. *)
Lemma crcTableEntry_unsigned (k : nat) : forall c : Z,
  toUint32 (crcTableEntry k c) = bitSteps k (toUint32 c).
Proof.
  induction k as [|k IH]; intros c; [reflexivity|].
  cbn [crcTableEntry bitSteps]. rewrite IH. f_equal.
  unfold bitStep. rewrite js_and_1_unsigned.
  pose proof (toUint32_range c) as Hc.
  pose proof (shiftr_range (toUint32 c) 1 Hc ltac:(lia)) as Hs.
  unfold js_ushr. change (1 mod 32) with 1.
  destruct (Z.testbit (toUint32 c) 0); cbn [negb].
  - rewrite js_xor_unsigned. change (toUint32 3988292384) with 3988292384.
    now rewrite (toUint32_small (Z.shiftr _ _)).
  - now apply toUint32_small.
Qed.

(** The step is linear for exclusive or. *)
Lemma bitStep_lxor (x y : Z) : bitStep (Z.lxor x y) = Z.lxor (bitStep x) (bitStep y).
Proof.
  unfold bitStep. rewrite Z.lxor_spec, Z.shiftr_lxor.
  destruct (Z.testbit x 0), (Z.testbit y 0); cbn [xorb];
    apply Z.bits_inj'; intros n _; rewrite !Z.lxor_spec;
    now destruct (Z.testbit 3988292384 n), (Z.testbit (Z.shiftr x 1) n),
                 (Z.testbit (Z.shiftr y 1) n).
Qed.

Lemma bitSteps_lxor (k : nat) : forall x y,
  bitSteps k (Z.lxor x y) = Z.lxor (bitSteps k x) (bitSteps k y).
Proof.
  induction k as [|k IH]; intros x y; [reflexivity|].
  cbn [bitSteps]. now rewrite bitStep_lxor, IH.
Qed.

(** Steps on a state whose low bits are clear only shift it. *)
Lemma bitSteps_shifted (k : nat) : forall h : Z,
  bitSteps k (Z.shiftl h (Z.of_nat k)) = h.
Proof.
  induction k as [|k IH]; intros h.
  - cbn. apply Z.shiftl_0_r.
  - cbn [bitSteps]. unfold bitStep.
    rewrite Z.shiftl_spec by lia.
    rewrite Z.testbit_neg_r by lia.
    rewrite Z.shiftr_shiftl_l by lia.
    replace (Z.of_nat (S k) - 1) with (Z.of_nat k) by lia. apply IH.
Qed.

Lemma low_high_byte (w : Z) :
  w = Z.lxor (Z.land w 255) (Z.shiftl (Z.shiftr w 8) 8).
Proof.
  apply Z.bits_inj'. intros n Hn.
  rewrite Z.lxor_spec, Z.land_spec.
  change 255 with (Z.ones 8).
  destruct (Z.lt_ge_cases n 8) as [Hlt|Hge].
  - rewrite Z.ones_spec_low, Z.shiftl_spec_low by lia.
    now rewrite andb_true_r, xorb_false_r.
  - rewrite Z.ones_spec_high, Z.shiftl_spec, Z.shiftr_spec by lia.
    rewrite andb_false_r, xorb_false_l. f_equal. lia.
Qed.

Lemma table_is_built (i : Z) :
  0 <= i < 256 ->
  nth (Z.to_nat i) CRC32_TABLE 0 = toUint32 (crcTableEntry 8 i).
Proof.
  intros Hi. change CRC32_TABLE with buildCrcTable. unfold buildCrcTable.
  set (f := fun n => toUint32 (crcTableEntry 8 (Z.of_nat n))).
  rewrite (nth_indep _ 0 (f 0%nat)) by (rewrite length_map, length_seq; lia).
  rewrite map_nth, seq_nth by lia. subst f. cbn beta.
  now rewrite Nat.add_0_l, Z2Nat.id by lia.
Qed.

(** One lookup in the table is eight bitwise steps: the update of the
    checksum by a byte is the bitwise checksum of the state with the byte
    exclusive-ored into its low bits. *)
Theorem crcStep_is_eight_bit_steps (crc : Z) (b : byte) :
  toUint32 (crcStep crc b)
  = toUint32 (crcTableEntry 8 (Z.lxor (toUint32 crc) (byteValue b))).
Proof.
  rewrite crcStep_unsigned, crcTableEntry_unsigned. unfold crcNext.
  pose proof (toUint32_range crc) as Hu. pose proof (byteValue_range b) as Hb.
  set (u := toUint32 crc) in *. set (v := byteValue b) in *.
  assert (Hw : 0 <= Z.lxor u v < 2 ^ 32).
  { rewrite <- (toUint32_small u), <- (toUint32_small v), <- toUint32_lxor by lia.
    apply toUint32_range. }
  rewrite (toUint32_small (Z.lxor u v)) by exact Hw.
  rewrite table_is_built by apply land_255_range.
  rewrite crcTableEntry_unsigned.
  rewrite (toUint32_small (Z.land _ 255)) by (pose proof (land_255_range (Z.lxor u v)); lia).
  rewrite (low_high_byte (Z.lxor u v)) at 2.
  rewrite bitSteps_lxor.
  pose proof (bitSteps_shifted 8 (Z.shiftr (Z.lxor u v) 8)) as Hs.
  change (Z.of_nat 8) with 8 in Hs. rewrite Hs.
  rewrite Z.shiftr_lxor. replace (Z.shiftr v 8) with 0; [now rewrite Z.lxor_0_r|].
  symmetry. rewrite Z.shiftr_div_pow2 by lia. apply Z.div_small. lia.
Qed.

(** ** The detector of delimited text *)

Lemma split_nonempty (d : codeUnit) (s : jsString) : split d s <> [].
Proof.
  induction s as [|c s IH]; cbn [split]; [discriminate|].
  destruct (N.eqb c d); [discriminate|].
  destruct (split d s); discriminate.
Qed.

(** The number of pieces is the number of separators plus one. *)
Lemma split_length (d : codeUnit) (s : jsString) :
  List.length (split d s) = S (count_occ N.eq_dec s d).
Proof.
  induction s as [|c s IH]; [reflexivity|].
  cbn [split count_occ].
  destruct (N.eqb_spec c d) as [->|Hne].
  - destruct (N.eq_dec d d); [|contradiction]. cbn [List.length]. now rewrite IH.
  - destruct (N.eq_dec c d); [contradiction|].
    pose proof (split_nonempty d s) as Hs.
    destruct (split d s); [contradiction|]. exact IH.
Qed.

Lemma maxOf_upper (counts : list nat) (c : nat) :
  In c counts -> (c <= maxOf counts)%nat.
Proof.
  induction counts as [|x counts IH]; [contradiction|].
  cbn [maxOf fold_right]. intros [->|Hin]; [lia|].
  specialize (IH Hin). unfold maxOf in IH. lia.
Qed.

Lemma indexOf_found (x : nat) (counts : list nat) :
  In x counts ->
  0 <= indexOf x counts
  /\ nth_error counts (Z.to_nat (indexOf x counts)) = Some x.
Proof.
  induction counts as [|c counts IH]; [contradiction|].
  cbn [indexOf]. destruct (Nat.eqb_spec c x) as [->|Hne].
  - intros _. split; [lia | reflexivity].
  - intros [Heq|Hin]; [contradiction|].
    destruct (IH Hin) as [Hpos Hnth].
    destruct (indexOf x counts <? 0) eqn:Hneg; [apply Z.ltb_lt in Hneg; lia|].
    split; [lia|].
    rewrite Z2Nat.inj_add by lia. change (Z.to_nat 1) with 1%nat.
    rewrite Nat.add_1_r. exact Hnth.
Qed.

Lemma maxOf_in (counts : list nat) : counts <> [] -> In (maxOf counts) counts.
Proof.
  induction counts as [|x counts IH]; [contradiction|]. intros _.
  cbn [maxOf fold_right]. fold (maxOf counts).
  destruct counts as [|y counts].
  - cbn. left. lia.
  - destruct (Nat.max_spec x (maxOf (y :: counts))) as [[_ ->]|[_ ->]].
    + right. apply IH. discriminate.
    + now left.
Qed.

Lemma consistentLines_bound (d : option codeUnit) (colCount : nat)
      (lines : list jsString) :
  (consistentLines d colCount lines <= Nat.max 1 (Nat.min 10 (List.length lines)))%nat.
Proof.
  unfold consistentLines.
  set (f := fun consistent line =>
              if (List.length (splitBy d line) =? colCount)%nat
              then S consistent else consistent).
  assert (Hf : forall acc x, (f acc x <= S acc)%nat).
  { intros acc x. unfold f.
    destruct (List.length (splitBy d x) =? colCount)%nat; lia. }
  assert (H : forall l acc, (fold_left f l acc <= acc + List.length l)%nat).
  { induction l as [|x l IH]; intros acc; cbn [fold_left List.length]; [lia|].
    specialize (IH (f acc x)). specialize (Hf acc x). lia. }
  specialize (H (skipn 1 (firstn (Nat.min 10 (List.length lines)) lines)) 1%nat).
  rewrite length_skipn, length_firstn in H. lia.
Qed.

(** What a positive answer of [detectCSV] guarantees: one of the four
    delimiters (never [undefined]), the one that occurs most often in the
    first line, at least 3 columns and at least 6 lines. *)
Theorem detectCSV_sound (text : jsString) (info : csvInfo) :
  detectCSV text = Some info ->
  exists d : codeUnit,
    type info = "csv"%string
    /\ delimiter info = Some d /\ In d delimiters
    /\ columns info = S (count_occ N.eq_dec (nth 0 (split 10%N text) []) d)
    /\ (forall d', In d' delimiters ->
          (count_occ N.eq_dec (nth 0 (split 10%N text) []) d' < columns info)%nat)
    /\ (3 <= columns info)%nat
    /\ rows info = S (count_occ N.eq_dec text 10%N)
    /\ (6 <= rows info)%nat.
Proof.
  unfold detectCSV.
  set (lines := split 10%N text). set (firstLine := nth 0 lines []).
  set (counts := map (fun d => (List.length (split d firstLine) - 1)%nat) delimiters).
  destruct (List.length lines <? 3)%nat eqn:Hfew; [discriminate|].
  destruct (maxOf counts <? 2)%nat eqn:Hmax; [discriminate|].
  apply Nat.ltb_ge in Hmax.
  destruct (indexOf_found (maxOf counts) counts) as [Hpos Hnth];
    [apply maxOf_in; discriminate|].
  unfold at_. replace (indexOf (maxOf counts) counts <? 0) with false
    by (symmetry; apply Z.ltb_ge; exact Hpos).
  set (i := Z.to_nat (indexOf (maxOf counts) counts)) in *.
  remember (maxOf counts) as m eqn:Hm.
  unfold counts in Hnth. rewrite nth_error_map in Hnth.
  destruct (nth_error delimiters i) as [d|] eqn:Hd; [|discriminate].
  cbn [option_map] in Hnth.
  assert (Hcount : (List.length (split d firstLine) - 1)%nat = m) by congruence.
  clear Hnth. subst m. cbn [splitBy].
  destruct (5 <? consistentLines (Some d) (List.length (split d firstLine)) lines)%nat
    eqn:Hcons; [|discriminate].
  apply Nat.ltb_lt in Hcons.
  intros [= <-]. cbn [type delimiter columns rows].
  exists d. split; [reflexivity|].
  split; [reflexivity|]. split; [eapply nth_error_In; exact Hd|].
  rewrite split_length in *.
  split; [reflexivity|]. split.
  - intros d' Hd'.
    assert (Hin : In (List.length (split d' firstLine) - 1)%nat counts)
      by (apply in_map_iff; eauto).
    apply maxOf_upper in Hin. rewrite split_length in Hin. lia.
  - split; [lia|]. split; [apply split_length|].
    pose proof (consistentLines_bound (Some d)
                  (S (count_occ N.eq_dec firstLine d)) lines) as Hb.
    lia.
Qed.

Lemma split_no_separator (d : codeUnit) (s : jsString) :
  ~ In d s -> split d s = [s].
Proof.
  induction s as [|c s IH]; [reflexivity|]. intros Hnot.
  cbn [split]. destruct (N.eqb_spec c d) as [->|Hne].
  - exfalso. apply Hnot. now left.
  - rewrite IH; [reflexivity|]. intros Hin. apply Hnot. now right.
Qed.

Lemma split_app_separator (d : codeUnit) (s t : jsString) :
  ~ In d s -> split d (s ++ d :: t) = s :: split d t.
Proof.
  induction s as [|c s IH]; intros Hnot.
  - cbn [app split]. now rewrite N.eqb_refl.
  - cbn [app split]. destruct (N.eqb_spec c d) as [->|Hne].
    + exfalso. apply Hnot. now left.
    + rewrite IH; [reflexivity|]. intros Hin. apply Hnot. now right.
Qed.

(** Lines that hold no line feed are what [split] gives back of their
    [join]. *)
Lemma split_join (d : codeUnit) (pieces : list jsString) :
  pieces <> [] -> (forall piece, In piece pieces -> ~ In d piece) ->
  split d (join d pieces) = pieces.
Proof.
  induction pieces as [|x pieces IH]; [contradiction|]. intros _ Hfree.
  destruct pieces as [|y pieces].
  - cbn [join]. apply split_no_separator, Hfree. now left.
  - change (join d (x :: y :: pieces)) with (x ++ d :: join d (y :: pieces)).
    rewrite split_app_separator by (apply Hfree; now left).
    rewrite IH; [reflexivity | discriminate|].
    intros piece Hin. apply Hfree. now right.
Qed.

Lemma consistentLines_all (d : codeUnit) (colCount : nat) (lines : list jsString) :
  (forall line, In line (firstn 10 lines) ->
     List.length (split d line) = colCount) ->
  consistentLines (Some d) colCount lines
  = Nat.max 1 (Nat.min 10 (List.length lines)).
Proof.
  intros Hall. unfold consistentLines. cbn [splitBy].
  set (f := fun consistent line =>
              if (List.length (split d line) =? colCount)%nat
              then S consistent else consistent).
  assert (H : forall l acc,
             (forall line, In line l -> List.length (split d line) = colCount) ->
             fold_left f l acc = (acc + List.length l)%nat).
  { induction l as [|x l IH]; intros acc Hl; cbn [fold_left List.length]; [lia|].
    rewrite IH by (intros line Hin; apply Hl; now right).
    unfold f. rewrite (Hl x) by now left. rewrite Nat.eqb_refl. lia. }
  rewrite H.
  - rewrite length_skipn, length_firstn. lia.
  - intros line Hin. apply Hall.
    rewrite Nat.min_comm, firstn_min_length in Hin.
    destruct (firstn 10 lines) as [|x l]; [destruct Hin | now right].
Qed.

(** A regular comma-separated table is recognised: at least 6 lines without
    line feeds, the first ten with the same number (at least 2) of commas,
    and no other delimiter more frequent than the comma in the first line.
    The comma also wins every tie. *)
Theorem detectCSV_regular_table (table : list jsString) (commas : nat) :
  (6 <= List.length table)%nat ->
  (2 <= commas)%nat ->
  (forall line, In line table -> ~ In 10%N line) ->
  (forall line, In line (firstn 10 table) ->
     count_occ N.eq_dec line 44%N = commas) ->
  (forall d, In d delimiters ->
     (count_occ N.eq_dec (nth 0 table []) d <= commas)%nat) ->
  detectCSV (join 10%N table)
  = Some {| type := "csv"; delimiter := Some 44%N; columns := S commas;
            rows := List.length table |}.
Proof.
  intros Hrows Hcommas Hfree Hregular Hothers.
  unfold detectCSV.
  rewrite split_join by (try exact Hfree; intros ->; cbn in Hrows; lia).
  replace (List.length table <? 3)%nat with false
    by (symmetry; apply Nat.ltb_ge; lia).
  set (firstLine := nth 0 table []).
  assert (Hfirst : count_occ N.eq_dec firstLine 44%N = commas).
  { apply Hregular. destruct table as [|x table]; [cbn in Hrows; lia|].
    now left. }
  set (counts := map (fun d => (List.length (split d firstLine) - 1)%nat) delimiters).
  assert (Hhead : exists rest, counts = commas :: rest).
  { unfold counts, delimiters. cbn [map]. rewrite split_length, Hfirst.
    eexists. f_equal. lia. }
  assert (Hmax : maxOf counts = commas).
  { apply Nat.le_antisymm.
    - assert (Hin : In (maxOf counts) counts)
        by (apply maxOf_in; unfold counts, delimiters; discriminate).
      remember (maxOf counts) as m eqn:Hm.
      unfold counts in Hin. apply in_map_iff in Hin as (d & Hd & Hind).
      rewrite <- Hd, split_length. specialize (Hothers d Hind).
      fold firstLine in Hothers. lia.
    - apply maxOf_upper. destruct Hhead as [rest ->]. now left. }
  rewrite Hmax.
  replace (commas <? 2)%nat with false by (symmetry; apply Nat.ltb_ge; lia).
  destruct Hhead as [rest ->]. cbn [indexOf]. rewrite Nat.eqb_refl.
  cbn [at_ Z.ltb Z.compare Z.to_nat nth_error delimiters splitBy].
  rewrite split_length, Hfirst.
  rewrite consistentLines_all.
  - replace (5 <? Nat.max 1 (Nat.min 10 (List.length table)))%nat with true
      by (symmetry; apply Nat.ltb_lt; lia).
    reflexivity.
  - intros line Hin. rewrite split_length. f_equal. now apply Hregular.
Qed.

Lemma detectCSV_regular_table_witness :
  detectCSV (join 10%N (repeat (units "lote;peso,humedad,fecha") 7))
  = Some {| type := "csv"; delimiter := Some 44%N; columns := 3; rows := 7 |}.
Proof.
  apply (detectCSV_regular_table (repeat (units "lote;peso,humedad,fecha") 7) 2).
  - simpl. lia.
  - lia.
  - intros line Hin. apply repeat_spec in Hin. subst line.
    vm_compute. intuition discriminate.
  - intros line Hin.
    change (firstn 10 (repeat (units "lote;peso,humedad,fecha") 7))
      with (repeat (units "lote;peso,humedad,fecha") 7) in Hin.
    apply repeat_spec in Hin. subst line. reflexivity.
  - intros d Hd. vm_compute in Hd.
    destruct Hd as [<-|[<-|[<-|[<-|[]]]]]; vm_compute; lia.
Defined.

Lemma detectCSV_sound_witness :
  exists d : codeUnit,
    "csv"%string = "csv"%string
    /\ Some 44%N = Some d /\ In d delimiters
    /\ 3%nat = S (count_occ N.eq_dec
                    (nth 0 (split 10%N
                              (join 10%N (repeat (units "lote;peso,humedad,fecha") 7)))
                         []) d)
    /\ (forall d', In d' delimiters ->
          (count_occ N.eq_dec
             (nth 0 (split 10%N
                       (join 10%N (repeat (units "lote;peso,humedad,fecha") 7))) [])
             d' < 3)%nat)
    /\ (3 <= 3)%nat
    /\ 7%nat = S (count_occ N.eq_dec
                    (join 10%N (repeat (units "lote;peso,humedad,fecha") 7)) 10%N)
    /\ (6 <= 7)%nat.
Proof.
  apply (detectCSV_sound (join 10%N (repeat (units "lote;peso,humedad,fecha") 7))
           {| type := "csv"; delimiter := Some 44%N; columns := 3; rows := 7 |}).
  vm_compute. reflexivity.
Defined.

(** ** File names *)

Lemma includes_In (array : list jsString) (s : jsString) :
  includes array s = true <-> In s array.
Proof.
  unfold includes. rewrite existsb_exists. split.
  - intros (e & Hin & He). destruct (list_eq_dec N.eq_dec e s); [now subst|discriminate].
  - intros Hin. exists s. split; [exact Hin|].
    destruct (list_eq_dec N.eq_dec s s); [reflexivity | contradiction].
Qed.

Lemma lastIndexOf_none (s : jsString) (c : codeUnit) :
  lastIndexOf s c < 0 -> ~ In c s.
Proof.
  induction s as [|x s IH]; [intros _ []|].
  cbn [lastIndexOf]. destruct (0 <=? lastIndexOf s c) eqn:Hi.
  - apply Z.leb_le in Hi. lia.
  - apply Z.leb_gt in Hi. destruct (N.eqb_spec x c) as [->|Hne]; [lia|].
    intros _ [Heq|Hin]; [contradiction|]. now apply IH.
Qed.

Lemma lastIndexOf_range (s : jsString) (c : codeUnit) :
  -1 <= lastIndexOf s c < Z.of_nat (List.length s).
Proof.
  induction s as [|x s IH]; [cbn; lia|].
  cbn [lastIndexOf List.length]. rewrite Nat2Z.inj_succ.
  destruct (0 <=? lastIndexOf s c) eqn:Hi; [lia|].
  destruct (N.eqb x c); lia.
Qed.

(** The last index cuts the string into a stem, the code unit, and a rest
    without it. *)
Lemma lastIndexOf_found (s : jsString) (c : codeUnit) :
  0 <= lastIndexOf s c ->
  s = firstn (Z.to_nat (lastIndexOf s c)) s
      ++ c :: skipn (Z.to_nat (lastIndexOf s c + 1)) s
  /\ ~ In c (skipn (Z.to_nat (lastIndexOf s c + 1)) s).
Proof.
  induction s as [|x s IH]; [cbn; lia|].
  cbn [lastIndexOf]. destruct (0 <=? lastIndexOf s c) eqn:Hi.
  - apply Z.leb_le in Hi. intros _. destruct (IH Hi) as [Hs Hnot].
    rewrite !Z2Nat.inj_add by lia. change (Z.to_nat 1) with 1%nat.
    rewrite !Nat.add_1_r. cbn [firstn skipn app].
    rewrite Z2Nat.inj_add, Nat.add_1_r in Hs, Hnot by lia.
    split; [f_equal; exact Hs | exact Hnot].
  - apply Z.leb_gt in Hi. destruct (N.eqb_spec x c) as [->|Hne]; [|lia].
    intros _. cbn. split; [reflexivity|]. now apply lastIndexOf_none.
Qed.

Lemma lastIndexOf_app (stem ext : jsString) (c : codeUnit) :
  ~ In c ext -> lastIndexOf (stem ++ c :: ext) c = Z.of_nat (List.length stem).
Proof.
  intros Hnot. induction stem as [|x stem IH].
  - cbn [app lastIndexOf List.length].
    assert (H : lastIndexOf ext c < 0).
    { pose proof (lastIndexOf_range ext c) as Hr.
      destruct (Z.lt_ge_cases (lastIndexOf ext c) 0) as [H|H]; [exact H|].
      destruct (lastIndexOf_found ext c ltac:(lia)) as [Hs _].
      exfalso. apply Hnot. rewrite Hs. apply in_or_app. right. now left. }
    replace (0 <=? lastIndexOf ext c) with false by (symmetry; apply Z.leb_gt; lia).
    now rewrite N.eqb_refl.
  - cbn [app lastIndexOf List.length]. rewrite IH, Nat2Z.inj_succ.
    replace (0 <=? Z.of_nat (List.length stem)) with true
      by (symmetry; apply Z.leb_le; lia).
    lia.
Qed.

(** A file is refused exactly when its name is a stem that is not empty, a
    dot, and a rest without dots whose lower case is one of the ten
    extensions; names without a dot, and names whose only dot comes first
    (such as [.zip]), are accepted. *)
Theorem shouldCompressFile_refuses (toLowerCase : jsString -> jsString)
        (filename : jsString) (fileSize : Z) :
  toLowerCase [] = [] ->
  (shouldCompressFile toLowerCase filename fileSize = false
   <-> exists stem ext : jsString,
        filename = stem ++ 46%N :: ext /\ stem <> [] /\ ~ In 46%N ext
        /\ In (46%N :: toLowerCase ext) nonCompressible).
Proof.
  intros Hempty. unfold shouldCompressFile, getFileExtension.
  rewrite negb_false_iff, includes_In.
  pose proof (lastIndexOf_range filename 46%N) as Hrange.
  split.
  - destruct (Z.max 0 (lastIndexOf filename 46%N) =? 0) eqn:Hdot.
    + rewrite Hempty. vm_compute. intuition discriminate.
    + apply Z.eqb_neq in Hdot. intros Hin.
      assert (Hpos : 0 < lastIndexOf filename 46%N) by lia.
      rewrite Z.max_r in Hin by lia.
      destruct (lastIndexOf_found filename 46%N ltac:(lia)) as [Hs Hnot].
      exists (firstn (Z.to_nat (lastIndexOf filename 46%N)) filename),
        (skipn (Z.to_nat (lastIndexOf filename 46%N + 1)) filename).
      split; [exact Hs|]. split; [|split; assumption].
      intros Hnil. apply (f_equal (@List.length _)) in Hnil.
      rewrite length_firstn in Hnil. cbn in Hnil. lia.
  - intros (stem & ext & -> & Hstem & Hnot & Hin).
    rewrite lastIndexOf_app by exact Hnot.
    assert (Hlen : (0 < List.length stem)%nat)
      by (destruct stem; [contradiction | cbn; lia]).
    rewrite Z.max_r by lia.
    replace (Z.of_nat (List.length stem) =? 0) with false
      by (symmetry; apply Z.eqb_neq; lia).
    replace (Z.to_nat (Z.of_nat (List.length stem) + 1))
      with (List.length stem + 1)%nat by lia.
    rewrite skipn_app, skipn_all2 by lia.
    replace (List.length stem + 1 - List.length stem)%nat with 1%nat by lia.
    exact Hin.
Qed.

Lemma shouldCompressFile_refuses_witness :
  shouldCompressFile asciiLower (units "foto.JPG") 1024 = false
  <-> exists stem ext : jsString,
       units "foto.JPG" = stem ++ 46%N :: ext /\ stem <> [] /\ ~ In 46%N ext
       /\ In (46%N :: asciiLower ext) nonCompressible.
Proof.
  apply (shouldCompressFile_refuses asciiLower (units "foto.JPG") 1024).
  reflexivity.
Defined.

Example shouldCompressFile_examples :
  shouldCompressFile asciiLower (units "foto.JPG") 1024 = false
  /\ shouldCompressFile asciiLower (units ".zip") 1024 = true
  /\ shouldCompressFile asciiLower (units "zip") 1024 = true
  /\ shouldCompressFile asciiLower (units "datos.tar.gz") 1024 = true
  /\ getFileExtension asciiLower (units "Reporte.Final.CSV") = units "csv".
Proof. repeat split; vm_compute; reflexivity. Qed.
